(** * Booking/payment reconciliation and OTP verification

    A shallow embedding of the Express handlers of the hotel booking
    server: the token middleware ([middleware/auth.ts]), the booking routes
    ([routes/hotels.ts]) and the account routes (register, verify-email,
    resend-otp) together with the [sendEmail] helper.

    Handlers are written in a small state-and-early-return monad over a
    [world] holding the two document collections, the outbox of the mail
    transport and the log of requests issued to the payment provider.
    External collaborators (Stripe, nodemailer, jsonwebtoken, the clock,
    the random source) are fields of an [env] record, one per request. *)

From Stdlib Require Import ZArith Lia Ascii String SpecFloat.
From stdpp Require Import base strings gmap list pretty.

Local Open Scope Z_scope.

(** ** JavaScript values met in request bodies *)

Inductive jsval :=
  | JUndefined
  | JNull
  | JBool (b : bool)
  | JNum (n : Z)
  | JStr (s : string).

Global Instance jsval_eq_dec : EqDecision jsval.
Proof. solve_decision. Defined.

(** The results of arithmetic are the integer-valued doubles, written as
    their integer value (the two zeros are not told apart), the two
    infinities and [NaN]. Numbers with a fraction are not part of the
    model. *)
Inductive jsnum :=
  | Int (z : Z)
  | NaN
  | Inf (negative : bool).

Global Instance jsnum_eq_dec : EqDecision jsnum.
Proof. solve_decision. Defined.

(** The double nearest to the integer [v]: 53 significant bits, ties to the
    even significand, infinite from [2^1024 - 2^970] on. *)
Definition round_double (v : Z) : jsnum :=
  let a := Z.abs v in
  let excess := Z.log2 a - 52 in
  if excess <=? 0 then Int v
  else
    let unit := 2 ^ excess in
    let q := a / unit in
    let r := a mod unit in
    let up := (unit <? 2 * r) || ((unit =? 2 * r) && Z.odd q) in
    let m := (if up then q + 1 else q) * unit in
    if 2 ^ 1024 <=? m then Inf (v <? 0) else Int (Z.sgn v * m).

(** [a * b] on doubles: the exact product, rounded once. *)
Definition js_mul (a b : jsnum) : jsnum :=
  match a, b with
  | Int x, Int y => round_double (x * y)
  | Int x, Inf s | Inf s, Int x =>
      if x =? 0 then NaN else Inf (xorb s (x <? 0))
  | Inf s, Inf t => Inf (xorb s t)
  | NaN, _ | _, NaN => NaN
  end.

(** The same numbers in the IEEE 754 specification of the standard
    library, binary64 being [prec = 53] and [emax = 1024]. *)
Definition to_binary64 (n : jsnum) : spec_float :=
  match n with
  | Int z => binary_normalize 53 1024 z 0 false
  | NaN => S754_nan
  | Inf s => S754_infinity s
  end.

Definition of_binary64 (f : spec_float) : jsnum :=
  match f with
  | S754_zero _ => Int 0
  | S754_infinity s => Inf s
  | S754_nan => NaN
  | S754_finite s m e =>
      Int (cond_Zopp s (if 0 <=? e then Zpos m * 2 ^ e else Zpos m / 2 ^ (- e)))
  end.

(** [!v] is true exactly on the falsy values. *)
Definition falsy (v : jsval) : bool :=
  match v with
  | JUndefined | JNull | JBool false | JNum 0 | JStr "" => true
  | _ => false
  end.

(** A request body is a JSON object; reading an absent key gives
    [undefined]. *)
Definition body_get (k : string) (body : gmap string jsval) : jsval :=
  default JUndefined (body !! k).

(** [req.userId] may be [undefined] when the token payload has no such
    field. *)
Definition js_of_id (u : option string) : jsval :=
  match u with
  | Some s => JStr s
  | None => JUndefined
  end.

(** [s.split(' ')] *)
Fixpoint split_on (c : ascii) (s : string) : list string :=
  match s with
  | EmptyString => [EmptyString]
  | String a rest =>
      if decide (a = c) then EmptyString :: split_on c rest
      else match split_on c rest with
           | x :: xs => String a x :: xs
           | [] => [String a EmptyString]
           end
  end.

(** ** Documents *)

(** Modelled from the spec: the Booking Record is the object the handler
    builds from the request body; the [BookingType] declaration of
    [shared/types] is not part of the sources at hand. *)
Abbreviation booking := (gmap string jsval).

(** Modelled from the spec: the hotel document of [models/hotel], reduced to
    the fields the booking routes read or write; the nightly rate is an
    integer-valued number. *)
Record hotel := Hotel {
  name : string;
  pricePerNight : Z;
  bookings : list booking;
}.

(** Modelled from the spec: the Identity of [models/user]: unique id, email,
    verification flag, optional OTP secret and optional OTP expiry, plus the
    first name the mail templates print. *)
Record user := User {
  id : string;
  email : string;
  firstName : jsval;
  isVerified : bool;
  otp : option string;
  otpExpiry : option Z;
}.

(** ** Collaborators *)

Record payment_intent := PaymentIntent {
  pi_id : string;
  client_secret : option string;
  pi_status : string;
  metadata : gmap string string;
}.

Record create_params := CreateParams {
  amount : jsnum;
  currency : string;
  cp_metadata : gmap string string;
}.

Inductive provider_reply :=
  | ProviderError
  | ProviderNone
  | ProviderIntent (p : payment_intent).

Inductive jwt_result :=
  | JwtPayload (userId : option string)
  | TokenExpiredError
  | JsonWebTokenError
  | JwtOtherError.

(** The HTML templates, kept as the values interpolated into them. *)
Inductive mail_html :=
  | BookingConfirmationHtml (first : jsval) (hotelName hotelId : string)
      (checkIn checkOut totalCost : jsval)
  | VerifyEmailHtml (first : jsval) (code : string)
  | ResendOtpHtml (first : jsval) (code : string).

Record mail := Mail {
  to : jsval;
  subject : string;
  html : mail_html;
}.

Record env := Env {
  jwt_verify : string → jwt_result;
  jwt_sign : string → string;
  stripe_create : create_params → provider_reply;
  stripe_retrieve : jsval → provider_reply;
  sendMail : mail → bool;
  save_ok : bool;
  string_to_number : string → jsnum;
  is_email : string → bool;
  fresh_id : string;
  now : Z;
  entropy : Z;
  is_length_6 : jsval → bool;
}.

(** ** Responses *)

Inductive payload :=
  | Empty
  | Message (m : string)
  | MessageDetails (m d : string)
  | ValidationErrors
  | IntentCreated (paymentIntentId clientSecret : string) (totalCost : jsnum)
  | Registered (m : string) (mail : string) (userId : string).

Record response := Response {
  status : Z;
  sent : payload;
  set_cookie : option string;
}.

Definition json (code : Z) (m : string) : response :=
  Response code (Message m) None.

(** ** The world and the handler monad *)

Record world := World {
  hotels : gmap string hotel;
  users : gmap string user;
  outbox : list mail;
  charges : list create_params;
}.

Definition empty_world : world := World ∅ ∅ [] [].

Inductive outcome (A : Type) :=
  | Next (a : A)
  | Reply (r : response)
  | Raise.
Arguments Next {A} a.
Arguments Reply {A} r.
Arguments Raise {A}.

Definition handler (A : Type) : Type := world → world * outcome A.

Global Instance handler_ret : MRet handler := λ A a w, (w, Next a).

Global Instance handler_bind : MBind handler := λ A B k m w,
  match m w with
  | (w', Next a) => k a w'
  | (w', Reply r) => (w', Reply r)
  | (w', Raise) => (w', Raise)
  end.

Definition reply {A} (r : response) : handler A := λ w, (w, Reply r).
Definition raise {A} : handler A := λ w, (w, Raise).

(** [try { h } catch (error) { res.status(..).. }] *)
Definition try_catch {A} (h : handler A) (on_error : response) : handler A :=
  λ w, match h w with
       | (w', Raise) => (w', Reply on_error)
       | r => r
       end.

(** [await sendEmail({to, subject, html})]: the transport either accepts the
    message or rejects, and the rejection is not caught in [sendEmail]. *)
Definition sendEmail (e : env) (m : mail) : handler unit :=
  λ w, if sendMail e m
       then (World (hotels w) (users w) (outbox w ++ [m]) (charges w), Next ())
       else (w, Raise).

(** [await doc.save()] on a document without pending changes. *)
Definition save_unmodified (e : env) : handler unit :=
  λ w, if save_ok e then (w, Next ()) else (w, Raise).

(** ** GET /search *)

Module Search.

(** A value of [req.query]: a string, or an array of strings when the key
    is repeated. *)
Inductive qval :=
  | QStr (s : string)
  | QArr (l : list string).

(** [if (queryParams.k)]: absent keys and the empty string are falsy, arrays
    are truthy. *)
Definition truthy (v : option qval) : bool :=
  match v with
  | None | Some (QStr EmptyString) => false
  | Some _ => true
  end.

(** [l.join(",")] *)
Fixpoint join (l : list string) : string :=
  match l with
  | [] => ""
  | [x] => x
  | x :: rest => x +:+ "," +:+ join rest
  end.

(** ToString of a query value, as [toString()], [parseInt] and [new RegExp]
    apply it. *)
Definition to_str (v : qval) : string :=
  match v with
  | QStr s => s
  | QArr l => join l
  end.

(** [Array.isArray(v) ? v : [v]] *)
Definition as_array (v : qval) : list string :=
  match v with
  | QStr s => [s]
  | QArr l => l
  end.

Inductive star_filter :=
  | StarOne (n : jsnum)
  | StarList (l : list jsnum).

(** The filter built for [Hotel.find]; an absent field is an absent key. *)
Record search_query := SearchQuery {
  q_or : option string;
  q_adultCount : option jsnum;
  q_childCount : option jsnum;
  q_facilities : option (list string);
  q_type : option (list string);
  q_starRating : option star_filter;
  q_pricePerNight : option string;
}.

Inductive sort_options :=
  | SortNone
  | StarRatingDesc
  | PricePerNightAsc
  | PricePerNightDesc.

(** The runtime and the database, as the search route sees them:
    [parseInt]; whether [new RegExp(src, "i")] accepts its source; the
    documents matching a filter, in the order of a sort, or [None] when the
    call rejects; what a cursor with a negative, infinite or [NaN] skip
    yields; [countDocuments]; and the decimal form [toString] gives a
    double beyond the safe integers. *)
Record search_env := SearchEnv {
  parseInt : string → jsnum;
  regexp_ok : string → bool;
  find_sorted : search_query → sort_options → option (list hotel);
  find_invalid_skip : jsnum → option (list hotel);
  countDocuments : search_query → option nat;
  large_to_string : Z → string;
}.

(** [n.toString()]: the digits of a safe integer; beyond [2^53] the
    shortest form that reads back as the same double, with an exponent
    from [1e21] on, is the runtime's. *)
Definition num_to_string (se : search_env) (n : jsnum) : string :=
  match n with
  | Int z => if Z.abs z <=? 2 ^ 53 then pretty z else large_to_string se z
  | NaN => "NaN"
  | Inf false => "Infinity"
  | Inf true => "-Infinity"
  end.

Definition when {A} (v : option qval) (f : qval → A) : option A :=
  if truthy v then f <$> v else None.

(** [constructSearchQuery(queryParams)]; [None] when [new RegExp] throws. *)
Definition constructSearchQuery (se : search_env) (queryParams : gmap string qval)
  : option search_query :=
  let destination := queryParams !! "destination" in
  if truthy destination
     && negb (regexp_ok se (default "" (to_str <$> destination)))
  then None
  else
    Some (SearchQuery
      (when destination to_str)
      (when (queryParams !! "adultCount") (λ v, parseInt se (to_str v)))
      (when (queryParams !! "childCount") (λ v, parseInt se (to_str v)))
      (when (queryParams !! "facilities") as_array)
      (when (queryParams !! "types") as_array)
      (when (queryParams !! "stars")
         (λ v, match v with
               | QArr l => StarList (parseInt se <$> l)
               | QStr s => StarOne (parseInt se s)
               end))
      (when (queryParams !! "maxPrice")
         (λ v, num_to_string se (parseInt se (to_str v))))).

(** [switch (req.query.sortOption)] *)
Definition sortOptions (queryParams : gmap string qval) : sort_options :=
  match queryParams !! "sortOption" with
  | Some (QStr "starRating") => StarRatingDesc
  | Some (QStr "pricePerNightAsc") => PricePerNightAsc
  | Some (QStr "pricePerNightDesc") => PricePerNightDesc
  | _ => SortNone
  end.

Definition pageSize : Z := 5.

(** [parseInt(req.query.page ? req.query.page.toString() : "1")] *)
Definition pageNumber (se : search_env) (queryParams : gmap string qval) : jsnum :=
  parseInt se (if truthy (queryParams !! "page")
               then default "" (to_str <$> queryParams !! "page")
               else "1").

(** [(pageNumber - 1) * pageSize] *)
Definition skip_of (page : jsnum) : jsnum :=
  match page with
  | Int p => Int ((p - 1) * pageSize)
  | NaN => NaN
  | Inf s => Inf s
  end.

(** [.skip(skip).limit(pageSize)] over the sorted matches. *)
Definition window (se : search_env) (skip : jsnum) (docs : list hotel)
  : option (list hotel) :=
  match skip with
  | Int k =>
      if bool_decide (0 ≤ k)
      then Some (take (Z.to_nat pageSize) (drop (Z.to_nat k) docs))
      else find_invalid_skip se skip
  | NaN | Inf _ => find_invalid_skip se skip
  end.

(** [Math.ceil(total / pageSize)] *)
Definition pages_of (total : nat) : nat := (total + 4) / 5.

Inductive search_outcome :=
  | SearchOk (data : list hotel) (total : nat) (page : jsnum) (pages : nat)
  | SearchFailed (r : response).

(** GET /search *)
Definition search (se : search_env) (queryParams : gmap string qval)
  : search_outcome :=
  let failed := SearchFailed (json 500 "Something went wrong") in
  match constructSearchQuery se queryParams with
  | None => failed
  | Some query =>
      let page := pageNumber se queryParams in
      match find_sorted se query (sortOptions queryParams)
              ≫= window se (skip_of page) with
      | None => failed
      | Some hotels =>
          match countDocuments se query with
          | None => failed
          | Some total => SearchOk hotels total page (pages_of total)
          end
      end
  end.

Definition data_of (o : search_outcome) : list hotel :=
  match o with
  | SearchOk data _ _ _ => data
  | SearchFailed _ => []
  end.

End Search.

(** A request: its cookies, its Authorization header, its other headers
    (names in lower case), its query string, the [hotelId] of the path where
    the route has one, and its JSON body. *)
Record request := Request {
  cookies : gmap string string;
  authorization : option string;
  headers : gmap string string;
  query : gmap string Search.qval;
  hotelId : string;
  body : gmap string jsval;
}.

(** ** middleware/auth.ts *)

Module Auth.

(** [req.cookies["auth_token"] || req.headers.authorization?.split(' ')[1]] *)
Definition token_of (req : request) : option string :=
  match cookies req !! "auth_token" with
  | Some (String a s) => Some (String a s)
  | _ => match authorization req with
         | Some h => split_on " "%char h !! 1%nat
         | None => None
         end
  end.

Definition verifyToken (e : env) (req : request) : handler (option string) :=
  match token_of req with
  | None | Some EmptyString =>
      reply (Response 401
               (MessageDetails "Authentication required"
                  "No token provided in cookies or Authorization header")
               None)
  | Some token =>
      match jwt_verify e token with
      | JwtPayload uid => mret uid
      | TokenExpiredError => reply (json 401 "Token expired")
      | JsonWebTokenError => reply (json 401 "Malformed token")
      | JwtOtherError => reply (json 401 "Invalid token")
      end
  end.

End Auth.

(** ** routes/hotels.ts *)

Module Hotels.

(** ToNumber, as the [*] operator applies it to a body field; the reading
    of string literals is left to the runtime. *)
Definition to_number (e : env) (v : jsval) : jsnum :=
  match v with
  | JUndefined => NaN
  | JNull => Int 0
  | JBool b => Int (if b then 1 else 0)
  | JNum n => Int n
  | JStr s => string_to_number e s
  end.

(** [Hotel.findById(hotelId)] *)
Definition findById (hid : string) : handler (option hotel) :=
  λ w, (w, Next (hotels w !! hid)).

(** [stripe.paymentIntents.create(params)]: the request is issued, then the
    provider answers or the call rejects. *)
Definition paymentIntents_create (e : env) (p : create_params)
  : handler payment_intent :=
  λ w, let w' := World (hotels w) (users w) (outbox w) (charges w ++ [p]) in
       match stripe_create e p with
       | ProviderIntent i => (w', Next i)
       | _ => (w', Raise)
       end.

(** [stripe.paymentIntents.retrieve(id)] *)
Definition paymentIntents_retrieve (e : env) (pid : jsval)
  : handler (option payment_intent) :=
  λ w, match stripe_retrieve e pid with
       | ProviderIntent i => (w, Next (Some i))
       | ProviderNone => (w, Next None)
       | ProviderError => (w, Raise)
       end.

(** [metadata: { hotelId, userId: req.userId }] *)
Definition intent_metadata (hid : string) (uid : option string)
  : gmap string string :=
  let m := {[ "hotelId" := hid ]} in
  match uid with
  | Some u => <["userId" := u]> m
  | None => m
  end.

(** POST /:hotelId/bookings/payment-intent, after [verifyToken]. The handler
    has no [try]: a rejected provider call leaves the request unanswered. *)
Definition payment_intent_handler (e : env) (req : request)
    (userId : option string) : handler unit :=
  let numberOfNights := body_get "numberOfNights" (body req) in
  hotel ← findById (hotelId req);
  match hotel with
  | None => reply (json 400 "Hotel not found")
  | Some hotel =>
      let totalCost := js_mul (Int (pricePerNight hotel))
                              (to_number e numberOfNights) in
      paymentIntent ← paymentIntents_create e
        (CreateParams (js_mul totalCost (Int 100)) "gbp"
                      (intent_metadata (hotelId req) userId));
      match client_secret paymentIntent with
      | None | Some EmptyString =>
          reply (json 500 "Error creating payment intent")
      | Some secret =>
          reply (Response 200
                   (IntentCreated (pi_id paymentIntent) secret totalCost)
                   None)
      end
  end.

(** [Hotel.findOneAndUpdate({ _id }, { $push: { bookings: newBooking } })]:
    one conditional write; the document as it was before the write is
    returned, or [null] when the id does not resolve. *)
Definition with_booking (h : hotel) (b : booking) : hotel :=
  Hotel (name h) (pricePerNight h) (bookings h ++ [b]).

Definition push_booking (hid : string) (h : hotel) (b : booking) (w : world)
  : world :=
  World (<[hid := with_booking h b]> (hotels w)) (users w) (outbox w) (charges w).

Definition findOneAndUpdate_push (hid : string) (b : booking)
  : handler (option hotel) :=
  λ w, match hotels w !! hid with
       | Some h => (push_booking hid h b w, Next (Some h))
       | None => (w, Next None)
       end.

(** [{ ...req.body, userId: req.userId }] *)
Definition newBooking (req : request) (userId : option string) : booking :=
  <["userId" := js_of_id userId]> (body req).

(** The confirmation notice: [to: req.body.email] and the template filled
    from the body, the path parameter and the hotel document. *)
Definition confirmation_mail (req : request) (hotel : hotel) : mail :=
  Mail (body_get "email" (body req)) "Booking Confirmation"
    (BookingConfirmationHtml
       (body_get "firstName" (body req)) (name hotel) (hotelId req)
       (body_get "checkIn" (body req)) (body_get "checkOut" (body req))
       (body_get "totalCost" (body req))).

Definition context_mismatch (p : payment_intent) (req : request)
    (userId : option string) : bool :=
  negb (bool_decide (metadata p !! "hotelId" = Some (hotelId req)))
  || negb (bool_decide (metadata p !! "userId" = userId)).

(** POST /:hotelId/bookings, after [verifyToken]. *)
Definition bookings_handler (e : env) (req : request)
    (userId : option string) : handler unit :=
  try_catch
    (let paymentIntentId := body_get "paymentIntentId" (body req) in
     paymentIntent ← paymentIntents_retrieve e paymentIntentId;
     match paymentIntent with
     | None => reply (json 400 "payment intent not found")
     | Some paymentIntent =>
         if context_mismatch paymentIntent req userId
         then reply (json 400 "payment intent mismatch")
         else if negb (bool_decide (pi_status paymentIntent = "succeeded"))
         then reply (json 400 ("payment intent not succeeded. Status: "
                               +:+ pi_status paymentIntent))
         else
           hotel ← findOneAndUpdate_push (hotelId req) (newBooking req userId);
           match hotel with
           | None => reply (json 400 "hotel not found")
           | Some hotel =>
               save_unmodified e;;
               sendEmail e (confirmation_mail req hotel);;
               reply (Response 200 Empty None)
           end
     end)
    (json 500 "something went wrong").

(** The two routes with their middleware. *)
Definition createAuthorization (e : env) (req : request) : handler unit :=
  userId ← Auth.verifyToken e req; payment_intent_handler e req userId.

Definition confirmBooking (e : env) (req : request) : handler unit :=
  userId ← Auth.verifyToken e req; bookings_handler e req userId.

End Hotels.

(** ** The account routes: register, verify-email, resend-otp *)

Module Users.

(** [crypto.randomInt(min, max)] returns an integer [n] with
    [min <= n < max]; [x] is the draw of the random source, reduced into
    the [max - min] admissible offsets. *)
Definition randomInt (min max : Z) (x : Z) : Z :=
  min + x mod (max - min).

(** [crypto.randomInt(100000, 999999).toString()] *)
Definition generateOtp (e : env) : string :=
  pretty (randomInt 100000 999999 (entropy e)).

(** [new Date(Date.now() + 10 * 60 * 1000)], in milliseconds. *)
Definition expiryFrom (e : env) : Z :=
  now e + 10 * 60 * 1000.

(** A value that [check(field)] finds in one location of the request: a
    JSON value of the body, the string of a cookie, of a header or of a
    query key, or the array of a repeated query key. *)
Inductive instance :=
  | Single (v : jsval)
  | Repeated (l : list string).

Definition of_query (v : Search.qval) : instance :=
  match v with
  | Search.QStr s => Single (JStr s)
  | Search.QArr l => Repeated l
  end.

(** [check(field)] reads the field in [req.body], [req.cookies],
    [req.headers] (under its lower-case name), [req.params] and
    [req.query]; the locations where it is [undefined] are left out. On
    POST /register [req.params] is empty. *)
Definition instances (req : request) (field header : string) : list instance :=
  match body req !! field with
  | None | Some JUndefined => []
  | Some v => [Single v]
  end
  ++ option_list (Single ∘ JStr <$> cookies req !! field)
  ++ option_list (Single ∘ JStr <$> headers req !! header)
  ++ option_list (of_query <$> query req !! field).

(** [isString()]: [typeof value === "string"]. *)
Definition isString (i : instance) : bool :=
  match i with
  | Single (JStr _) => true
  | _ => false
  end.

(** [isEmail()]: the verdict of the validator on a string, on every element
    of an array; the string of another value is never an email. *)
Definition isEmail (e : env) (i : instance) : bool :=
  match i with
  | Single (JStr s) => is_email e s
  | Single _ => false
  | Repeated l => forallb (is_email e) l
  end.

(** [isLength({ min: 6 })]: [undefined] and [null] are read as the empty
    string and the booleans as "true" and "false", all too short; strings
    and numbers are for the validator to measure. *)
Definition isLength (e : env) (i : instance) : bool :=
  match i with
  | Single (JStr s) => is_length_6 e (JStr s)
  | Single (JNum n) => is_length_6 e (JNum n)
  | Single _ => false
  | Repeated l => forallb (λ s, is_length_6 e (JStr s)) l
  end.

(** A check passes when every location that holds the field passes; when
    none does, the one [undefined] instance fails each of the three
    validators. *)
Definition passes (validator : instance → bool) (found : list instance) : bool :=
  match found with
  | [] => false
  | _ => forallb validator found
  end.

(** The four [check(..)] of POST /register. *)
Definition validation_ok (e : env) (req : request) : bool :=
  passes isString (instances req "firstName" "firstname")
  && passes isString (instances req "lastName" "lastname")
  && passes (isEmail e) (instances req "email" "email")
  && passes (isLength e) (instances req "password" "password").

(** [User.findOne({ email })]: accounts are filed under their email, a
    string; a query value of another type matches none. *)
Definition findOne (mail : jsval) : handler (option user) :=
  λ w, (w, Next match mail with
                | JStr s => users w !! s
                | _ => None
                end).

(** [await user.save()] *)
Definition save (e : env) (u : user) : handler unit :=
  λ w, if save_ok e
       then (World (hotels w) (<[email u := u]> (users w)) (outbox w) (charges w),
             Next ())
       else (w, Raise).

(** Modelled from the spec: an Identity has an email, so [user.save()]
    rejects a new document whose body carried none (the checks can pass on
    an email found in another location). *)
Definition new_account_without_email : handler unit := raise.

(** POST /register *)
Definition register (e : env) (req : request) : handler unit :=
  if negb (validation_ok e req)
  then reply (Response 400 ValidationErrors None)
  else
    try_catch
      (existing ← findOne (body_get "email" (body req));
       match existing with
       | Some _ => reply (json 400 "User already exists")
       | None =>
           let otp := generateOtp e in
           match body_get "email" (body req) with
           | JStr mail =>
               let user :=
                 User (fresh_id e) mail (body_get "firstName" (body req))
                      false (Some otp) (Some (expiryFrom e)) in
               save e user;;
               sendEmail e (Mail (JStr (email user)) "Verify your email"
                              (VerifyEmailHtml (firstName user) otp));;
               reply (Response 200
                        (Registered
                           "User registered successfully. Please verify your email."
                           (email user) (id user))
                        (Some (jwt_sign e (id user))))
           | _ => new_account_without_email
           end
       end)
      (json 500 "Something went wrong").

(** [!user.otp || !user.otpExpiry] *)
Definition no_challenge (u : user) : bool :=
  match otp u, otpExpiry u with
  | Some (String _ _), Some _ => false
  | _, _ => true
  end.

(** [user.otp !== otp]; reached only when [user.otp] is a string. *)
Definition otp_differs (u : user) (submitted : jsval) : bool :=
  match otp u with
  | Some code => negb (bool_decide (JStr code = submitted))
  | None => negb (bool_decide (JUndefined = submitted))
  end.

(** [user.otpExpiry < new Date()] *)
Definition expired (e : env) (u : user) : bool :=
  match otpExpiry u with
  | Some t => bool_decide (t < now e)
  | None => false
  end.

(** POST /verify-email *)
Definition verify_email (e : env) (req : request) : handler unit :=
  let mail := body_get "email" (body req) in
  let code := body_get "otp" (body req) in
  try_catch
    (found ← findOne mail;
     match found with
     | None => reply (json 400 "User not found")
     | Some user =>
         if isVerified user
         then reply (json 400 "Email already verified")
         else if no_challenge user
         then reply (json 400 "OTP not generated for this user")
         else if otp_differs user code
         then reply (json 400 "Invalid OTP")
         else if expired e user
         then reply (json 400 "OTP expired")
         else
           save e (User (id user) (email user) (firstName user) true None None);;
           reply (json 200 "Email verified successfully")
     end)
    (json 500 "Something went wrong").

(** POST /resend-otp *)
Definition resend_otp (e : env) (req : request) : handler unit :=
  let mail := body_get "email" (body req) in
  if falsy mail
  then reply (json 400 "Email is required")
  else
    try_catch
      (found ← findOne mail;
       match found with
       | None => reply (json 400 "User not found")
       | Some user =>
           if isVerified user
           then reply (json 400 "Email is already verified")
           else
             let newOtp := generateOtp e in
             save e (User (id user) (email user) (firstName user)
                          (isVerified user) (Some newOtp) (Some (expiryFrom e)));;
             sendEmail e (Mail (JStr (email user))
                            "Resend OTP - Verify your email"
                            (ResendOtpHtml (firstName user) newOtp));;
             reply (json 200 "OTP resent successfully")
       end)
      (json 500 "Something went wrong").

End Users.

(** ** The server as a transition system *)

Inductive route :=
  | PostPaymentIntent
  | PostBookings
  | PostRegister
  | PostVerifyEmail
  | PostResendOtp.

Definition dispatch (r : route) (e : env) (req : request) : handler unit :=
  match r with
  | PostPaymentIntent => Hotels.createAuthorization e req
  | PostBookings => Hotels.confirmBooking e req
  | PostRegister => Users.register e req
  | PostVerifyEmail => Users.verify_email e req
  | PostResendOtp => Users.resend_otp e req
  end.

(** Worlds the server can be in, starting from any collection of hotels and
    no account. *)
Inductive reachable : world → Prop :=
  | reachable_init hs : reachable (World hs ∅ [] [])
  | reachable_step w r e req :
      reachable w → reachable (dispatch r e req w).1.

(** [n] calls of one handler in a row, each with its own collaborators. *)
Fixpoint run (h : env → request → handler unit) (calls : list (env * request))
    (w : world) : world * list (outcome unit) :=
  match calls with
  | [] => (w, [])
  | (e, req) :: rest =>
      let '(w1, o) := h e req w in
      let '(w2, os) := run h rest w1 in
      (w2, o :: os)
  end.

(** ** Predicates used in the statements *)

(** The request carries a credential that [jwt.verify] accepts, with [uid]
    as the identity in its payload. *)
Definition authenticated (e : env) (req : request) (uid : option string) : Prop :=
  ∃ token, Auth.token_of req = Some token ∧ token ≠ EmptyString
           ∧ jwt_verify e token = JwtPayload uid.

(** A call of POST /:hotelId/bookings for hotel [hid] that presents the
    intent [pid], passes every check and whose collaborators all answer. *)
Definition accepted (pid : jsval) (hid : string) (c : env * request) : Prop :=
  ∃ uid p,
    hotelId c.2 = hid
    ∧ body_get "paymentIntentId" (body c.2) = pid
    ∧ authenticated c.1 c.2 uid
    ∧ stripe_retrieve c.1 pid = ProviderIntent p
    ∧ pi_status p = "succeeded"
    ∧ Hotels.context_mismatch p c.2 uid = false
    ∧ save_ok c.1 = true
    ∧ ∀ m, sendMail c.1 m = true.

(** Two requests that differ at most in the [userId] field of the body. *)
Definition same_but_userId (r1 r2 : request) : Prop :=
  cookies r1 = cookies r2
  ∧ authorization r1 = authorization r2
  ∧ hotelId r1 = hotelId r2
  ∧ delete "userId" (body r1) = delete "userId" (body r2).

(** Every account is filed under its own email. *)
Definition keyed (w : world) : Prop :=
  ∀ m u, users w !! m = Some u → email u = m.

(** The OTP secret and the OTP expiry of an identity are both present or
    both absent. *)
Definition otp_paired (u : user) : Prop :=
  is_Some (otp u) ↔ is_Some (otpExpiry u).

Definition paired (w : world) : Prop :=
  ∀ m u, users w !! m = Some u → otp_paired u.

(** The two shapes in which the account routes store an identity: with the
    challenge just issued under [e], or verified with the challenge erased. *)
Definition challenge_issued (e : env) (u : user) : Prop :=
  isVerified u = false
  ∧ otp u = Some (Users.generateOtp e)
  ∧ otpExpiry u = Some (Users.expiryFrom e).

Definition challenge_consumed (u : user) : Prop :=
  isVerified u = true ∧ otp u = None ∧ otpExpiry u = None.

(** ** Concrete collaborators, requests and worlds

    Used to run the handlers on explicit inputs. *)

Definition intent_for (st hid uid : string) : payment_intent :=
  PaymentIntent "pi_1" (Some "cs_1") st
    (<["userId" := uid]> {[ "hotelId" := hid ]}).

(** A provider that knows the single intent "pi_1", created by "alice" for
    hotel "H1" and now in status [st]; a mail transport that is up or down;
    a clock reading [t]; a random source drawing [x]. *)
Definition sample_env (st : string) (mail_up : bool) (t x : Z) : env :=
  Env (λ tok, if decide (tok = "tokA") then JwtPayload (Some "alice")
              else JsonWebTokenError)
      (λ uid, "jwt:" +:+ uid)
      (λ p, ProviderIntent
              (PaymentIntent "pi_1" (Some "cs_1") "requires_payment_method"
                 (cp_metadata p)))
      (λ v, if decide (v = JStr "pi_1")
            then ProviderIntent (intent_for st "H1" "alice")
            else ProviderError)
      (λ _, mail_up) true (λ _, NaN) (λ _, true) "u1" t x
      (λ v, match v with
            | JStr s => bool_decide (6 ≤ String.length s)%nat
            | _ => false
            end).

Definition sample_body : gmap string jsval :=
  <["paymentIntentId" := JStr "pi_1"]>
    (<["email" := JStr "al@example.org"]>
       (<["firstName" := JStr "Al"]>
          (<["numberOfNights" := JNum 3]> ∅))).

Definition bearer_request (hid : string) (b : gmap string jsval) : request :=
  Request ∅ (Some "Bearer tokA") ∅ ∅ hid b.

Definition register_body : gmap string jsval :=
  <["firstName" := JStr "Al"]>
    (<["lastName" := JStr "Ba"]>
       (<["email" := JStr "al@example.org"]>
          (<["password" := JStr "hunter22"]> ∅))).

Definition verify_body (code : jsval) : gmap string jsval :=
  <["email" := JStr "al@example.org"]> (<["otp" := code]> ∅).

Definition plain_request (b : gmap string jsval) : request :=
  Request ∅ None ∅ ∅ "" b.

(** The world after "al@example.org" registered at time 0 with the draw
    23456: the challenge "123456" expiring at 600000. *)
Definition registered_world : world :=
  (Users.register (sample_env "succeeded" true 0 23456)
     (plain_request register_body) empty_world).1.

Definition sample_world : world :=
  World (<["H1" := Hotel "Inn" 100 []]> {[ "H2" := Hotel "Lodge" 80 [] ]})
        ∅ [] [].

(** ** Further predicates and inputs *)

(** The character [c] occurs in [s]. *)
Fixpoint occurs (c : ascii) (s : string) : bool :=
  match s with
  | EmptyString => false
  | String a rest => bool_decide (a = c) || occurs c rest
  end.

(** The request carries no usable cookie: [auth_token] is absent or empty. *)
Definition no_cookie (req : request) : Prop :=
  cookies req !! "auth_token" = None
  ∨ cookies req !! "auth_token" = Some EmptyString.

(** What a route may write: [w'] differs from [w] at most in the parts
    the route owns, and the two logs grow by at most one entry. *)
Definition grows_by_one {A} (old new : list A) : Prop :=
  ∃ l, new = old ++ l ∧ (length l ≤ 1)%nat.

Definition frame (r : route) (w w' : world) : Prop :=
  match r with
  | PostPaymentIntent =>
      hotels w' = hotels w ∧ users w' = users w ∧ outbox w' = outbox w
      ∧ grows_by_one (charges w) (charges w')
  | PostBookings =>
      users w' = users w ∧ charges w' = charges w
      ∧ grows_by_one (outbox w) (outbox w')
  | PostRegister | PostResendOtp =>
      hotels w' = hotels w ∧ charges w' = charges w
      ∧ grows_by_one (outbox w) (outbox w')
  | PostVerifyEmail =>
      hotels w' = hotels w ∧ charges w' = charges w ∧ outbox w' = outbox w
  end.

(** The request phase 1 issues to the provider for hotel document [h]. *)
Definition authorization_params (e : env) (req : request)
    (uid : option string) (h : hotel) : create_params :=
  CreateParams
    (js_mul (js_mul (Int (pricePerNight h))
                    (Hotels.to_number e (body_get "numberOfNights" (body req))))
            (Int 100))
    "gbp" (Hotels.intent_metadata (hotelId req) uid).

(** The collaborators of [e], with a provider whose calls all reject. *)
Definition provider_down (e : env) : env :=
  Env (jwt_verify e) (jwt_sign e) (λ _, ProviderError) (λ _, ProviderError)
      (sendMail e) (save_ok e) (string_to_number e) (is_email e) (fresh_id e)
      (now e) (entropy e) (is_length_6 e).

(** The identity POST /register stores for the email [s]. *)
Definition new_account (e : env) (req : request) (s : string) : user :=
  User (fresh_id e) s (body_get "firstName" (body req)) false
       (Some (Users.generateOtp e)) (Some (Users.expiryFrom e)).

(** The identity POST /resend-otp stores in place of [u]. *)
Definition reissued (e : env) (u : user) : user :=
  User (id u) (email u) (firstName u) false
       (Some (Users.generateOtp e)) (Some (Users.expiryFrom e)).

(** The identity POST /verify-email stores in place of [u]. *)
Definition verified (u : user) : user :=
  User (id u) (email u) (firstName u) true None None.

Definition verify_mail (e : env) (u : user) : mail :=
  Mail (JStr (email u)) "Verify your email"
       (VerifyEmailHtml (firstName u) (Users.generateOtp e)).

Definition resend_mail (e : env) (u : user) : mail :=
  Mail (JStr (email u)) "Resend OTP - Verify your email"
       (ResendOtpHtml (firstName u) (Users.generateOtp e)).

Definition with_account (w : world) (u : user) : world :=
  World (hotels w) (<[email u := u]> (users w)) (outbox w) (charges w).

Definition with_mail (w : world) (m : mail) : world :=
  World (hotels w) (users w) (outbox w ++ [m]) (charges w).

(** The answer of a successful registration. *)
Definition registered_reply (e : env) (u : user) : response :=
  Response 200
    (Registered "User registered successfully. Please verify your email."
       (email u) (id u))
    (Some (jwt_sign e (id u))).

(** In every account, the verification flag and the challenge exclude each
    other: verified accounts hold no challenge, unverified ones hold one
    that some request issued. *)
Definition flag_matches_challenge (u : user) : Prop :=
  challenge_consumed u ∨ ∃ e, challenge_issued e u.

(** The collaborators of [e] with the mail transport down. *)
Definition mail_down (e : env) : env :=
  Env (jwt_verify e) (jwt_sign e) (stripe_create e) (stripe_retrieve e)
      (λ _, false) (save_ok e) (string_to_number e) (is_email e) (fresh_id e)
      (now e) (entropy e) (is_length_6 e).

(** A verification attempt against the account filed under [s] whose
    submitted code is not the stored code [code]. *)
Definition wrong_guess (s code : string) (c : env * request) : Prop :=
  body_get "email" (body c.2) = JStr s
  ∧ body_get "otp" (body c.2) ≠ JStr code.

(** The query of [ps] asking for page [n], written in decimal. *)
Definition with_page (ps : gmap string Search.qval) (n : nat)
  : gmap string Search.qval :=
  <["page" := Search.QStr (pretty (Z.of_nat n))]> ps.

(** A database of six hotels that answers every filter with all of them, a
    [parseInt] that reads "1" and "2", and a [RegExp] that rejects "(". *)
Definition sample_search_env : Search.search_env :=
  let docs := [Hotel "A" 10 []; Hotel "B" 20 []; Hotel "C" 30 [];
               Hotel "D" 40 []; Hotel "E" 50 []; Hotel "F" 60 []] in
  Search.SearchEnv
    (λ s, if decide (s = "1") then Int 1
          else if decide (s = "2") then Int 2 else NaN)
    (λ src, negb (bool_decide (src = "(")))
    (λ _ _, Some docs) (λ _, None) (λ _, Some 6%nat) (λ _, "").

(** ** Proof automation: unfolding the handlers *)

Ltac run_handler :=
  unfold Hotels.bookings_handler, Hotels.payment_intent_handler, try_catch,
    Hotels.paymentIntents_retrieve, Hotels.paymentIntents_create,
    Hotels.findById, Hotels.findOneAndUpdate_push, Hotels.push_booking,
    save_unmodified, sendEmail,
    reply, json, mbind, handler_bind, mret, handler_ret.

Ltac run_users :=
  unfold Users.register, Users.verify_email, Users.resend_otp, try_catch,
    Users.findOne, Users.save, Users.new_account_without_email, raise,
    sendEmail, reply, json,
    mbind, handler_bind, mret, handler_ret.

(** ** Properties of the token middleware *)

Lemma verifyToken_authenticated e req uid w :
  authenticated e req uid → Auth.verifyToken e req w = (w, Next uid).
Proof.
  intros (token & Htok & Hne & Hjwt). unfold Auth.verifyToken.
  rewrite Htok. destruct token as [|a s]; [done|]. by rewrite Hjwt.
Qed.

Lemma verifyToken_world e req w : (Auth.verifyToken e req w).1 = w.
Proof.
  unfold Auth.verifyToken.
  destruct (Auth.token_of req) as [[|a s]|]; try done.
  by destruct (jwt_verify e (String a s)).
Qed.

Lemma verifyToken_next e req w w' uid :
  Auth.verifyToken e req w = (w', Next uid) → w' = w ∧ authenticated e req uid.
Proof.
  unfold Auth.verifyToken, authenticated.
  destruct (Auth.token_of req) as [[|a s]|] eqn:Htok; try done.
  destruct (jwt_verify e (String a s)) eqn:Hjwt; try done.
  intros [= <- <-]. split; [done|]. by exists (String a s).
Qed.

(** The middleware reads the cookie and the header only. *)
Lemma verifyToken_body e c a hd1 hd2 q1 q2 h b1 b2 :
  Auth.verifyToken e (Request c a hd1 q1 h b1)
  = Auth.verifyToken e (Request c a hd2 q2 h b2).
Proof. done. Qed.

Lemma authenticated_functional e req u1 u2 :
  authenticated e req u1 → authenticated e req u2 → u1 = u2.
Proof.
  intros (t1 & H1 & _ & J1) (t2 & H2 & _ & J2).
  rewrite H1 in H2. injection H2 as ->. rewrite J1 in J2. by injection J2.
Qed.

(** ** Running the booking routes *)

Section booking_route.
Context (e : env) (req : request) (uid : option string) (w : world).
Hypothesis Hauth : authenticated e req uid.

Lemma confirmBooking_handler :
  Hotels.confirmBooking e req w = Hotels.bookings_handler e req uid w.
Proof.
  unfold Hotels.confirmBooking, mbind, handler_bind.
  by rewrite (verifyToken_authenticated _ _ _ _ Hauth).
Qed.

Lemma createAuthorization_handler :
  Hotels.createAuthorization e req w = Hotels.payment_intent_handler e req uid w.
Proof.
  unfold Hotels.createAuthorization, mbind, handler_bind.
  by rewrite (verifyToken_authenticated _ _ _ _ Hauth).
Qed.

End booking_route.

(** C1. Whenever the intent held by the provider names another hotel or
    another user than the request (path parameter, identity of the token),
    POST /:hotelId/bookings answers 400 "payment intent mismatch" and the
    world, hence every hotel's booking collection, is left as it was. *)
Theorem confirmBooking_context_mismatch e req uid w p :
  authenticated e req uid →
  stripe_retrieve e (body_get "paymentIntentId" (body req)) = ProviderIntent p →
  metadata p !! "hotelId" ≠ Some (hotelId req) ∨ metadata p !! "userId" ≠ uid →
  Hotels.confirmBooking e req w = (w, Reply (json 400 "payment intent mismatch")).
Proof.
  intros Hauth Hret Hdiff. rewrite (confirmBooking_handler _ _ _ _ Hauth).
  run_handler. rewrite Hret.
  assert (Hotels.context_mismatch p req uid = true) as ->; [|done].
  unfold Hotels.context_mismatch.
  destruct Hdiff as [H|H].
  - by rewrite (bool_decide_eq_false_2 _ H).
  - rewrite (bool_decide_eq_false_2 _ H). by rewrite orb_true_r.
Qed.

Lemma confirmBooking_context_mismatch_witness :
  Hotels.confirmBooking (sample_env "succeeded" true 0 0)
    (bearer_request "H2" sample_body) sample_world
  = (sample_world, Reply (json 400 "payment intent mismatch")).
Proof.
  apply (confirmBooking_context_mismatch _ _ (Some "alice") _
           (intent_for "succeeded" "H1" "alice")).
  - exists "tokA". by vm_compute.
  - by vm_compute.
  - left. by vm_compute.
Defined.

(** What the booking handler does once the intent resolves, belongs to the
    request and has succeeded, and the hotel id resolves. *)
Lemma bookings_handler_checks_pass e req uid w p h :
  stripe_retrieve e (body_get "paymentIntentId" (body req)) = ProviderIntent p →
  Hotels.context_mismatch p req uid = false →
  pi_status p = "succeeded" →
  hotels w !! hotelId req = Some h →
  Hotels.bookings_handler e req uid w =
    let w1 := Hotels.push_booking (hotelId req) h (Hotels.newBooking req uid) w in
    if save_ok e && sendMail e (Hotels.confirmation_mail req h)
    then (World (hotels w1) (users w1)
                (outbox w1 ++ [Hotels.confirmation_mail req h]) (charges w1),
          Reply (Response 200 Empty None))
    else (w1, Reply (json 500 "something went wrong")).
Proof.
  intros Hret Hctx Hst Hh. run_handler.
  rewrite Hret, Hctx, Hst. cbv beta iota.
  rewrite bool_decide_eq_true_2 by done. cbv beta iota delta [negb].
  rewrite Hh. cbv beta iota.
  destruct (save_ok e); [|done].
  by destruct (sendMail e _).
Qed.

Lemma context_mismatch_false p req uid :
  Hotels.context_mismatch p req uid = false ↔
  metadata p !! "hotelId" = Some (hotelId req) ∧ metadata p !! "userId" = uid.
Proof.
  unfold Hotels.context_mismatch.
  rewrite orb_false_iff, !negb_false_iff, !bool_decide_eq_true. done.
Qed.

(** C6, as amended. When the intent resolves and belongs to the request (same
    hotel, same user) but its status is not "succeeded", the route answers
    400 with the message "payment intent not succeeded. Status: " followed
    by the provider's status, and the world is unchanged. *)
Theorem confirmBooking_not_succeeded e req uid w p :
  authenticated e req uid →
  stripe_retrieve e (body_get "paymentIntentId" (body req)) = ProviderIntent p →
  metadata p !! "hotelId" = Some (hotelId req) →
  metadata p !! "userId" = uid →
  pi_status p ≠ "succeeded" →
  Hotels.confirmBooking e req w =
    (w, Reply (json 400 ("payment intent not succeeded. Status: "
                         +:+ pi_status p))).
Proof.
  intros Hauth Hret Hh Hu Hst. rewrite (confirmBooking_handler _ _ _ _ Hauth).
  run_handler. rewrite Hret.
  assert (Hotels.context_mismatch p req uid = false) as ->
    by by apply context_mismatch_false.
  by rewrite (bool_decide_eq_false_2 _ Hst).
Qed.

Lemma confirmBooking_not_succeeded_witness :
  Hotels.confirmBooking (sample_env "processing" true 0 0)
    (bearer_request "H1" sample_body) sample_world
  = (sample_world,
     Reply (json 400 "payment intent not succeeded. Status: processing")).
Proof.
  apply (confirmBooking_not_succeeded _ _ (Some "alice") _
           (intent_for "processing" "H1" "alice")).
  - exists "tokA". by vm_compute.
  - by vm_compute.
  - by vm_compute.
  - by vm_compute.
  - by vm_compute.
Defined.

(** Counterexample to C6 as stated: an intent that is not "succeeded" and was created for
    another hotel is answered with "payment intent mismatch", the mismatch
    test coming first in the handler. *)
Lemma mismatch_shadows_status_check :
  ¬ (∀ e req uid w p,
       authenticated e req uid →
       stripe_retrieve e (body_get "paymentIntentId" (body req))
         = ProviderIntent p →
       pi_status p ≠ "succeeded" →
       (Hotels.confirmBooking e req w).2 =
         Reply (json 400 ("payment intent not succeeded. Status: "
                          +:+ pi_status p))).
Proof.
  intros H.
  specialize (H (sample_env "processing" true 0 0)
                (bearer_request "H2" sample_body) (Some "alice") sample_world
                (intent_for "processing" "H1" "alice")).
  assert (Hotels.confirmBooking (sample_env "processing" true 0 0)
            (bearer_request "H2" sample_body) sample_world
          = (sample_world, Reply (json 400 "payment intent mismatch"))) as Hrun
    by by vm_compute.
  rewrite Hrun in H. simpl in H.
  assert (Reply (A:=unit) (json 400 "payment intent mismatch") =
          Reply (json 400 "payment intent not succeeded. Status: processing"))
    as Habs; [|discriminate Habs].
  apply H; [exists "tokA"| |]; by vm_compute.
Qed.

(** C2, as amended. When every check passes and the record has been appended,
    a rejected confirmation mail does not undo the append: the new record
    stays last in the hotel's collection. The caller however is answered
    500 "something went wrong". *)
Theorem confirmBooking_mail_failure e req uid w p h :
  authenticated e req uid →
  stripe_retrieve e (body_get "paymentIntentId" (body req)) = ProviderIntent p →
  Hotels.context_mismatch p req uid = false →
  pi_status p = "succeeded" →
  hotels w !! hotelId req = Some h →
  save_ok e = true →
  sendMail e (Hotels.confirmation_mail req h) = false →
  Hotels.confirmBooking e req w =
    (Hotels.push_booking (hotelId req) h (Hotels.newBooking req uid) w,
     Reply (json 500 "something went wrong")).
Proof.
  intros Hauth Hret Hctx Hst Hh Hsave Hmail.
  rewrite (confirmBooking_handler _ _ _ _ Hauth).
  rewrite (bookings_handler_checks_pass _ _ _ _ _ _ Hret Hctx Hst Hh).
  simpl. by rewrite Hsave, Hmail.
Qed.

Lemma confirmBooking_mail_failure_witness :
  Hotels.confirmBooking (sample_env "succeeded" false 0 0)
    (bearer_request "H1" sample_body) sample_world
  = (Hotels.push_booking "H1" (Hotel "Inn" 100 [])
       (Hotels.newBooking (bearer_request "H1" sample_body) (Some "alice"))
       sample_world,
     Reply (json 500 "something went wrong")).
Proof.
  apply (confirmBooking_mail_failure (sample_env "succeeded" false 0 0)
           (bearer_request "H1" sample_body) (Some "alice") sample_world
           (intent_for "succeeded" "H1" "alice") (Hotel "Inn" 100 [])).
  - exists "tokA". by vm_compute.
  - by vm_compute.
  - by vm_compute.
  - by vm_compute.
  - by vm_compute.
  - by vm_compute.
  - by vm_compute.
Defined.

(** Counterexample to C2 as stated: with the mail transport down, the record is appended
    and the caller is not told so; the answer is not the 200 of a booking. *)
Lemma mail_rejection_is_reported :
  ¬ (∀ e req uid w p h,
       authenticated e req uid →
       stripe_retrieve e (body_get "paymentIntentId" (body req))
         = ProviderIntent p →
       Hotels.context_mismatch p req uid = false →
       pi_status p = "succeeded" →
       hotels w !! hotelId req = Some h →
       save_ok e = true →
       sendMail e (Hotels.confirmation_mail req h) = false →
       Hotels.confirmBooking e req w =
         (Hotels.push_booking (hotelId req) h (Hotels.newBooking req uid) w,
          Reply (Response 200 Empty None))).
Proof.
  intros H.
  specialize (H (sample_env "succeeded" false 0 0)
                (bearer_request "H1" sample_body) (Some "alice") sample_world
                (intent_for "succeeded" "H1" "alice") (Hotel "Inn" 100 [])).
  assert ((Hotels.confirmBooking (sample_env "succeeded" false 0 0)
             (bearer_request "H1" sample_body) sample_world).2
          = Reply (json 500 "something went wrong")) as Hrun by by vm_compute.
  rewrite H in Hrun; [discriminate Hrun|exists "tokA"| | | | | |]; by vm_compute.
Qed.

(** One accepted call: the record is appended, the notice is sent, the
    answer is 200. *)
Lemma confirmBooking_accepted pid hid e req w h :
  accepted pid hid (e, req) →
  hotels w !! hid = Some h →
  ∃ uid, authenticated e req uid ∧
    Hotels.confirmBooking e req w =
      (World (<[hid := Hotels.with_booking h (Hotels.newBooking req uid)]>
                (hotels w))
             (users w) (outbox w ++ [Hotels.confirmation_mail req h])
             (charges w),
       Reply (Response 200 Empty None)).
Proof.
  intros (uid & p & Hhid & Hpid & Hauth & Hret & Hst & Hctx & Hsave & Hmail) Hh.
  simpl in *. subst hid. exists uid. split; [done|].
  rewrite (confirmBooking_handler _ _ _ _ Hauth).
  rewrite <- Hpid in Hret.
  rewrite (bookings_handler_checks_pass _ _ _ _ _ _ Hret Hctx Hst Hh).
  simpl. by rewrite Hsave, Hmail.
Qed.

(** C3. Confirmation is not deduplicated by intent id: [n] accepted calls
    that all present the same succeeded intent for the same hotel append [n]
    records, one per call and in call order, and each is answered 200. *)
Theorem confirmBooking_no_dedup pid hid calls w h :
  Forall (accepted pid hid) calls →
  hotels w !! hid = Some h →
  ∃ added,
    hotels (run Hotels.confirmBooking calls w).1 !! hid
      = Some (Hotel (name h) (pricePerNight h) (bookings h ++ added))
    ∧ length added = length calls
    ∧ Forall2 (λ c b, ∃ uid, authenticated c.1 c.2 uid
                             ∧ b = Hotels.newBooking c.2 uid) calls added
    ∧ (run Hotels.confirmBooking calls w).2
        = repeat (Reply (Response 200 Empty None)) (length calls).
Proof.
  intros Hall. revert w h.
  induction Hall as [|[e req] calls Hacc _ IH]; intros w h Hh.
  - exists []. simpl. rewrite app_nil_r. by destruct h.
  - destruct (confirmBooking_accepted _ _ _ _ _ _ Hacc Hh) as (uid & Hauth & Hrun).
    simpl. rewrite Hrun.
    set (w1 := World _ _ _ _).
    assert (hotels w1 !! hid
            = Some (Hotels.with_booking h (Hotels.newBooking req uid))) as Hh1
      by apply lookup_insert_eq.
    destruct (IH w1 _ Hh1) as (added & Hfin & Hlen & Hrec & Hout).
    destruct (run Hotels.confirmBooking calls w1) as [w2 os]. simpl in *.
    exists (Hotels.newBooking req uid :: added). split_and!.
    + rewrite Hfin. by rewrite <- app_assoc.
    + simpl. by rewrite Hlen.
    + constructor; [by exists uid | done].
    + by rewrite Hout.
Qed.

Lemma confirmBooking_no_dedup_witness :
  let call := (sample_env "succeeded" true 0 0, bearer_request "H1" sample_body) in
  ∃ added,
    hotels (run Hotels.confirmBooking [call; call; call] sample_world).1 !! "H1"
      = Some (Hotel "Inn" 100 ([] ++ added))
    ∧ length added = 3%nat
    ∧ Forall2 (λ c b, ∃ uid, authenticated c.1 c.2 uid
                             ∧ b = Hotels.newBooking c.2 uid)
        [call; call; call] added
    ∧ (run Hotels.confirmBooking [call; call; call] sample_world).2
        = repeat (Reply (Response 200 Empty None)) 3.
Proof.
  intros call.
  apply (confirmBooking_no_dedup (JStr "pi_1") "H1" [call; call; call]
           sample_world (Hotel "Inn" 100 [])).
  - assert (accepted (JStr "pi_1") "H1" call) as Hacc.
    { exists (Some "alice"), (intent_for "succeeded" "H1" "alice").
      split_and!; try by vm_compute. exists "tokA". by vm_compute. }
    repeat constructor; exact Hacc.
  - by vm_compute.
Defined.

(** *** Arithmetic on doubles *)



(** The rounding agrees with the IEEE 754 specification of the standard
    library where the two are run: beyond [2^53], on a tie, at the
    overflow threshold. *)
Example js_mul_as_binary64 :
  Forall (λ p, js_mul (Int p.1) (Int p.2)
               = of_binary64 (SFmul 53 1024 (to_binary64 (Int p.1))
                                (to_binary64 (Int p.2))))
    [(100, 9007199254740991); (9007199254740991, 3);
     (900719925474099072, 100); (27021597764222972, 100);
     (9007199254740993, 1); (3002399751580331, 3); (-7, 1286742750677285);
     (2 ^ 512, 2 ^ 512); (2 ^ 512, 2 ^ 512 - 2 ^ 459); (- 2 ^ 600, 2 ^ 600);
     (0, 5); (-3, 0); (12, -12)].
Proof. repeat (constructor; [by vm_compute|]). constructor. Qed.




(** ** The body's [userId] and the persisted record *)

Lemma body_get_off_userId k (b1 b2 : gmap string jsval) :
  k ≠ "userId" →
  delete "userId" b1 = delete "userId" b2 →
  body_get k b1 = body_get k b2.
Proof.
  intros Hk Hdel. unfold body_get.
  rewrite <- (lookup_delete_ne b1 "userId" k) by done.
  rewrite <- (lookup_delete_ne b2 "userId" k) by done.
  by rewrite Hdel.
Qed.

Lemma insert_userId_off v (b1 b2 : gmap string jsval) :
  delete "userId" b1 = delete "userId" b2 →
  <["userId" := v]> b1 = <["userId" := v]> b2.
Proof.
  intros Hdel.
  rewrite <- (insert_delete_eq b1), <- (insert_delete_eq b2). by rewrite Hdel.
Qed.

Lemma bookings_handler_body e c a hd1 hd2 q1 q2 hid b1 b2 uid :
  delete "userId" b1 = delete "userId" b2 →
  Hotels.bookings_handler e (Request c a hd1 q1 hid b1) uid
  = Hotels.bookings_handler e (Request c a hd2 q2 hid b2) uid.
Proof.
  intros Hdel.
  unfold Hotels.bookings_handler, Hotels.newBooking, Hotels.confirmation_mail,
    Hotels.context_mismatch. simpl.
  rewrite (insert_userId_off _ _ _ Hdel).
  rewrite (body_get_off_userId "paymentIntentId" b1 b2),
    (body_get_off_userId "email" b1 b2),
    (body_get_off_userId "firstName" b1 b2),
    (body_get_off_userId "checkIn" b1 b2),
    (body_get_off_userId "checkOut" b1 b2),
    (body_get_off_userId "totalCost" b1 b2); done.
Qed.

(** The only write of the booking handler: either no hotel changes, or the
    record built from the request and the token's identity is appended to
    the hotel of the path. *)
Lemma bookings_handler_hotels e req uid w :
  hotels (Hotels.bookings_handler e req uid w).1 = hotels w
  ∨ ∃ h, hotels w !! hotelId req = Some h
         ∧ hotels (Hotels.bookings_handler e req uid w).1
           = <[hotelId req := Hotels.with_booking h (Hotels.newBooking req uid)]>
               (hotels w).
Proof.
  run_handler.
  destruct (stripe_retrieve e _) as [| |p]; try by left.
  destruct (Hotels.context_mismatch p req uid); [by left|].
  destruct (negb _); [by left|].
  destruct (hotels w !! hotelId req) as [h|] eqn:Hh; [|by left].
  right. exists h. split; [done|]. cbv beta iota.
  destruct (save_ok e); [|done].
  by destruct (sendMail e _).
Qed.

(** C10. The [userId] of the body has no influence on POST /:hotelId/bookings:
    two requests that differ at most there have the same effect and the same
    answer; and whenever the route changes a hotel, it appends one record
    whose [userId] is the identity carried by the token. *)
Theorem confirmBooking_userId_from_token e r1 r2 w :
  same_but_userId r1 r2 →
  Hotels.confirmBooking e r1 w = Hotels.confirmBooking e r2 w
  ∧ ∀ hid h h',
      hotels w !! hid = Some h →
      hotels (Hotels.confirmBooking e r1 w).1 !! hid = Some h' →
      h' = h
      ∨ ∃ uid b, authenticated e r1 uid
                 ∧ bookings h' = bookings h ++ [b]
                 ∧ b !! "userId" = Some (js_of_id uid)
                 ∧ delete "userId" b = delete "userId" (body r2).
Proof.
  destruct r1 as [c1 a1 hd1 q1 hid1 b1], r2 as [c2 a2 hd2 q2 hid2 b2].
  intros (Hc & Ha & Hh & Hb). simpl in *. subst c2 a2 hid2.
  split.
  - unfold Hotels.confirmBooking, mbind, handler_bind.
    rewrite (verifyToken_body e c1 a1 hd1 hd2 q1 q2 hid1 b1 b2).
    destruct (Auth.verifyToken e (Request c1 a1 hd2 q2 hid1 b2) w)
      as [w' [uid| |]]; [|done..].
    by rewrite (bookings_handler_body e c1 a1 hd1 hd2 q1 q2 hid1 b1 b2 uid Hb).
  - intros hid h h' Hw Hw'.
    unfold Hotels.confirmBooking, mbind, handler_bind in Hw'.
    destruct (Auth.verifyToken e (Request c1 a1 hd1 q1 hid1 b1) w) as [w' o] eqn:Hv.
    destruct o as [uid| |].
    + apply verifyToken_next in Hv as [-> Hauth].
      destruct (bookings_handler_hotels e (Request c1 a1 hd1 q1 hid1 b1) uid w)
        as [Heq|(h0 & Hh0 & Heq)]; rewrite Heq in Hw'.
      * left. congruence.
      * simpl in *. destruct (decide (hid1 = hid)) as [->|Hne].
        -- rewrite lookup_insert_eq in Hw'. injection Hw' as <-.
           assert (h0 = h) as -> by congruence.
           right. exists uid, (Hotels.newBooking (Request c1 a1 hd1 q1 hid b1) uid).
           split_and!; [done|done| |].
           ++ unfold Hotels.newBooking. apply lookup_insert_eq.
           ++ unfold Hotels.newBooking. simpl.
              by rewrite delete_insert_eq.
        -- rewrite lookup_insert_ne in Hw' by done. left. congruence.
    + pose proof (verifyToken_world e (Request c1 a1 hd1 q1 hid1 b1) w) as Hsame.
      rewrite Hv in Hsame. simpl in *. subst w'. left. congruence.
    + pose proof (verifyToken_world e (Request c1 a1 hd1 q1 hid1 b1) w) as Hsame.
      rewrite Hv in Hsame. simpl in *. subst w'. left. congruence.
Qed.

Lemma confirmBooking_userId_from_token_witness :
  let e := sample_env "succeeded" true 0 0 in
  let r1 := bearer_request "H1" (<["userId" := JStr "mallory"]> sample_body) in
  let r2 := bearer_request "H1" sample_body in
  Hotels.confirmBooking e r1 sample_world = Hotels.confirmBooking e r2 sample_world
  ∧ ∀ hid h h',
      hotels sample_world !! hid = Some h →
      hotels (Hotels.confirmBooking e r1 sample_world).1 !! hid = Some h' →
      h' = h
      ∨ ∃ uid b, authenticated e r1 uid
                 ∧ bookings h' = bookings h ++ [b]
                 ∧ b !! "userId" = Some (js_of_id uid)
                 ∧ delete "userId" b = delete "userId" (body r2).
Proof.
  intros e r1 r2.
  apply (confirmBooking_userId_from_token e r1 r2 sample_world).
  by vm_compute.
Defined.

(** ** The account routes *)

Example registered_world_content :
  users registered_world !! "al@example.org"
  = Some (User "u1" "al@example.org" (JStr "Al") false (Some "123456")
            (Some 600000)).
Proof. by vm_compute. Qed.

Lemma hotels_routes_users r e req w :
  r = PostPaymentIntent ∨ r = PostBookings →
  users (dispatch r e req w).1 = users w.
Proof.
  intros [-> | ->]; simpl;
    unfold Hotels.createAuthorization, Hotels.confirmBooking, mbind, handler_bind;
    pose proof (verifyToken_world e req w) as Hw;
    destruct (Auth.verifyToken e req w) as [w' [uid| |]]; simpl in Hw; subst w';
    try done; run_handler.
  - destruct (hotels w !! hotelId req) as [h|]; [|done]. cbv beta iota.
    destruct (stripe_create e _) as [| |p]; try done.
    by destruct (client_secret p) as [[|]|].
  - destruct (stripe_retrieve e _) as [| |p]; try done.
    destruct (Hotels.context_mismatch p req uid); [done|].
    destruct (negb _); [done|].
    destruct (hotels w !! hotelId req) as [h|]; [|done]. cbv beta iota.
    destruct (save_ok e); [|done].
    by destruct (sendMail e _).
Qed.

(** The only writes to the account collection: a step stores at most one
    identity, under its email, either with a freshly issued challenge or
    verified with the challenge erased; the slot was free, or held an
    unverified identity of the same email. *)
Lemma dispatch_users r e req w :
  users (dispatch r e req w).1 = users w
  ∨ ∃ m u',
      users (dispatch r e req w).1 = <[email u' := u']> (users w)
      ∧ (challenge_issued e u' ∨ challenge_consumed u')
      ∧ ((users w !! m = None ∧ email u' = m)
         ∨ ∃ u0, users w !! m = Some u0 ∧ isVerified u0 = false
                 ∧ email u' = email u0).
Proof.
  destruct r;
    [left; apply hotels_routes_users; by left
    |left; apply hotels_routes_users; by right|..]; simpl; run_users.
  - (* register *)
    destruct (negb (Users.validation_ok e req)); [by left|].
    destruct (body_get "email" (body req)) as [| | | |s] eqn:Hmail;
      try by left.
    destruct (users w !! s) as [u0|] eqn:Hs; [by left|]. cbv beta iota zeta.
    destruct (save_ok e); [|by left].
    right. exists s.
    exists (User (fresh_id e) s (body_get "firstName" (body req)) false
              (Some (Users.generateOtp e)) (Some (Users.expiryFrom e))).
    split; [by destruct (sendMail e _)|].
    split; [by left|]. by left.
  - (* verify-email *)
    destruct (body_get "email" (body req)) as [| | | |s]; try by left.
    destruct (users w !! s) as [u|] eqn:Hs; [|by left]. cbv beta iota.
    destruct (isVerified u) eqn:Hver; [by left|].
    destruct (Users.no_challenge u); [by left|].
    destruct (Users.otp_differs u _); [by left|].
    destruct (Users.expired e u); [by left|].
    destruct (save_ok e); [|by left].
    right. exists s.
    exists (User (id u) (email u) (firstName u) true None None).
    split; [done|].
    split; [by right|]. right. by exists u.
  - (* resend-otp *)
    destruct (falsy (body_get "email" (body req))); [by left|].
    destruct (body_get "email" (body req)) as [| | | |s]; try by left.
    destruct (users w !! s) as [u|] eqn:Hs; [|by left]. cbv beta iota zeta.
    destruct (isVerified u) eqn:Hver; [by left|].
    destruct (save_ok e); [|by left].
    right. exists s.
    exists (User (id u) (email u) (firstName u) false
              (Some (Users.generateOtp e)) (Some (Users.expiryFrom e))).
    split; [by destruct (sendMail e _)|].
    split; [by left|]. right. by exists u.
Qed.

(** *** Invariants of the account collection *)

Lemma dispatch_keyed r e req w : keyed w → keyed (dispatch r e req w).1.
Proof.
  intros Hk m u.
  destruct (dispatch_users r e req w) as [->|(m0 & u' & -> & _ & Hprior)];
    [apply Hk|].
  destruct (decide (email u' = m)) as [<-|Hne].
  - rewrite lookup_insert_eq. by intros [= <-].
  - rewrite lookup_insert_ne by done. apply Hk.
Qed.

Lemma reachable_keyed w : reachable w → keyed w.
Proof.
  induction 1 as [hs|w r e req _ IH]; [|by apply dispatch_keyed].
  intros m u. simpl. by rewrite lookup_empty.
Qed.

Lemma dispatch_paired r e req w : paired w → paired (dispatch r e req w).1.
Proof.
  intros Hp m u.
  destruct (dispatch_users r e req w) as [->|(m0 & u' & -> & Hshape & _)];
    [apply Hp|].
  destruct (decide (email u' = m)) as [<-|Hne].
  - rewrite lookup_insert_eq. intros [= <-]. unfold otp_paired.
    destruct Hshape as [(_ & -> & ->)|(_ & -> & ->)]; [done|].
    split; intros []; done.
  - rewrite lookup_insert_ne by done. apply Hp.
Qed.

(** A verified identity is never written again. *)
Lemma dispatch_verified_stable r e req w m u :
  keyed w → users w !! m = Some u → isVerified u = true →
  users (dispatch r e req w).1 !! m = Some u.
Proof.
  intros Hk Hm Hver.
  destruct (dispatch_users r e req w) as [->|(m0 & u' & -> & _ & Hprior)];
    [done|].
  destruct (decide (email u' = m)) as [Heq|Hne];
    [|by rewrite lookup_insert_ne].
  exfalso. destruct Hprior as [[Hfree <-]|(u0 & Hu0 & Hnot & Hmail)].
  - rewrite Heq in Hfree. congruence.
  - rewrite (Hk _ _ Hu0) in Hmail. subst m0. rewrite Heq in Hu0. congruence.
Qed.

(** C9. In every world the server can reach, each identity has its OTP
    secret and its OTP expiry both present or both absent, and this still
    holds after any further request to any route, the three account routes
    included. *)
Theorem otp_fields_both_or_neither w :
  reachable w →
  paired w ∧ ∀ r e req, paired (dispatch r e req w).1.
Proof.
  intros Hreach.
  assert (paired w) as Hp.
  { induction Hreach as [hs|w r e req _ IH]; [|by apply dispatch_paired].
    intros m u. simpl. by rewrite lookup_empty. }
  split; [done|]. intros r e req. by apply dispatch_paired.
Qed.

Lemma otp_fields_both_or_neither_witness :
  paired registered_world
  ∧ ∀ r e req, paired (dispatch r e req registered_world).1.
Proof.
  apply (otp_fields_both_or_neither registered_world).
  exact (reachable_step empty_world PostRegister
           (sample_env "succeeded" true 0 23456) (plain_request register_body)
           (reachable_init ∅)).
Defined.

(** *** The challenge value *)

Lemma randomInt_bounds min max x :
  min < max → min ≤ Users.randomInt min max x < max.
Proof.
  intros Hlt. unfold Users.randomInt.
  pose proof (Z.mod_pos_bound x (max - min)). lia.
Qed.

(** Every integer of the half-open interval is drawn by some [x]. *)
Lemma randomInt_onto min max n :
  min ≤ n < max → Users.randomInt min max (n - min) = n.
Proof.
  intros Hn. unfold Users.randomInt. rewrite Z.mod_small; lia.
Qed.

Lemma pretty_N_go_length x s :
  (String.length s ≤ String.length (pretty_N_go x s))%nat.
Proof.
  revert s. induction (N.lt_wf_0 x) as [x _ IH]. intros s.
  destruct (decide (x = 0%N)) as [->|Hx]; [by rewrite pretty_N_go_0|].
  rewrite pretty_N_go_step by lia.
  etrans; [|apply IH; apply N.div_lt; lia]. simpl. lia.
Qed.

Lemma pretty_pos_nonempty (n : Z) : 0 < n → pretty n ≠ EmptyString.
Proof.
  destruct n as [|p|p]; try lia. intros _.
  unfold pretty, pretty_Z, pretty, pretty_positive, pretty, pretty_N.
  rewrite decide_False by done.
  rewrite pretty_N_go_step by lia.
  intros Habs.
  pose proof (pretty_N_go_length (N.pos p `div` 10)
                (String (pretty_N_char (N.pos p `mod` 10)) EmptyString)) as Hlen.
  rewrite Habs in Hlen. simpl in Hlen. lia.
Qed.

Lemma generateOtp_nonempty e : Users.generateOtp e ≠ EmptyString.
Proof.
  unfold Users.generateOtp. apply pretty_pos_nonempty.
  pose proof (randomInt_bounds 100000 999999 (entropy e)). lia.
Qed.

(** C4, on the code. The challenge of register and of resend-otp is the
    decimal writing of an integer between 100000 and 999998: the upper
    argument of [crypto.randomInt] is exclusive, so "999999" is never
    issued, whatever the random source draws. *)
Theorem generateOtp_range e :
  (∃ n, Users.generateOtp e = pretty n ∧ 100000 ≤ n ≤ 999998)
  ∧ Users.generateOtp e ≠ "999999".
Proof.
  pose proof (randomInt_bounds 100000 999999 (entropy e)) as Hb.
  split.
  - exists (Users.randomInt 100000 999999 (entropy e)). split; [done|lia].
  - unfold Users.generateOtp. change "999999" with (pretty 999999).
    intros Heq. apply (inj pretty) in Heq. lia.
Qed.

Example generateOtp_largest :
  Users.generateOtp (sample_env "succeeded" true 0 899998) = "999998"
  ∧ Users.generateOtp (sample_env "succeeded" true 0 899999) = "100000".
Proof. by vm_compute. Qed.

(** *** verify-email *)

(** The handler on an unverified identity that holds the challenge issued
    under [e0], when the submitted code is the issued one: the clock alone
    decides. *)
Lemma verify_email_matching e0 e req w m u :
  body_get "email" (body req) = JStr m →
  body_get "otp" (body req) = JStr (Users.generateOtp e0) →
  users w !! m = Some u →
  challenge_issued e0 u →
  Users.verify_email e req w =
    if bool_decide (Users.expiryFrom e0 < now e)
    then (w, Reply (json 400 "OTP expired"))
    else if save_ok e
    then (World (hotels w)
            (<[email u := User (id u) (email u) (firstName u) true None None]>
               (users w))
            (outbox w) (charges w),
          Reply (json 200 "Email verified successfully"))
    else (w, Reply (json 500 "Something went wrong")).
Proof.
  intros Hmail Hcode Hu (Hver & Hotp & Hexp).
  run_users. rewrite Hmail, Hcode, Hu. cbv beta iota. rewrite Hver.
  pose proof (generateOtp_nonempty e0) as Hne.
  unfold Users.no_challenge, Users.otp_differs, Users.expired.
  rewrite Hotp, Hexp.
  destruct (Users.generateOtp e0) as [|a s] eqn:Hgen; [done|].
  rewrite bool_decide_eq_true_2 by done. cbv beta iota delta [negb].
  destruct (bool_decide _); [done|].
  by destruct (save_ok e).
Qed.

(** C5, as amended. An unverified identity holds the challenge issued at
    time [now e0]; a verification that submits the issued code at a time
    strictly later than [now e0] plus ten minutes is answered 400
    "OTP expired" and changes nothing. *)
Theorem verify_email_expired e0 e req w m u :
  body_get "email" (body req) = JStr m →
  body_get "otp" (body req) = JStr (Users.generateOtp e0) →
  users w !! m = Some u →
  challenge_issued e0 u →
  now e0 + 10 * 60 * 1000 < now e →
  Users.verify_email e req w = (w, Reply (json 400 "OTP expired")).
Proof.
  intros Hmail Hcode Hu Hissued Hlate.
  rewrite (verify_email_matching e0 e req w m u) by done.
  by rewrite bool_decide_eq_true_2.
Qed.

Lemma verify_email_expired_witness :
  Users.verify_email (sample_env "succeeded" true 600001 0)
    (plain_request (verify_body (JStr "123456"))) registered_world
  = (registered_world, Reply (json 400 "OTP expired")).
Proof.
  apply (verify_email_expired (sample_env "succeeded" true 0 23456)
           (sample_env "succeeded" true 600001 0)
           (plain_request (verify_body (JStr "123456"))) registered_world
           "al@example.org"
           (User "u1" "al@example.org" (JStr "Al") false (Some "123456")
              (Some 600000))).
  - by vm_compute.
  - by vm_compute.
  - by vm_compute.
  - by vm_compute.
  - by vm_compute.
Defined.

(** Counterexample to C5 as stated, at the boundary: at the very instant of expiry, issue
    time plus ten minutes, the matching code is still accepted. *)
Lemma expiry_instant_still_accepted :
  ¬ (∀ e0 e req w m u,
       body_get "email" (body req) = JStr m →
       body_get "otp" (body req) = JStr (Users.generateOtp e0) →
       users w !! m = Some u →
       challenge_issued e0 u →
       now e0 + 10 * 60 * 1000 ≤ now e →
       (Users.verify_email e req w).2 = Reply (json 400 "OTP expired")).
Proof.
  intros H.
  specialize (H (sample_env "succeeded" true 0 23456)
                (sample_env "succeeded" true 600000 0)
                (plain_request (verify_body (JStr "123456"))) registered_world
                "al@example.org"
                (User "u1" "al@example.org" (JStr "Al") false (Some "123456")
                   (Some 600000))).
  assert ((Users.verify_email (sample_env "succeeded" true 600000 0)
             (plain_request (verify_body (JStr "123456"))) registered_world).2
          = Reply (json 200 "Email verified successfully")) as Hrun
    by by vm_compute.
  rewrite H in Hrun; [discriminate Hrun|..]; by vm_compute.
Qed.

(** C7. An identity that is verified is refused by verify-email with 400
    "Email already verified", whatever code is submitted, and nothing
    changes; no later request to any route alters it; and a verification
    that succeeds leaves the identity verified, with the challenge erased, so
    that every further attempt is refused: success is answered once only. *)
Theorem verify_email_already_verified e req w m :
  body_get "email" (body req) = JStr m →
  (∀ u, users w !! m = Some u → isVerified u = true →
        Users.verify_email e req w
          = (w, Reply (json 400 "Email already verified"))
        ∧ (keyed w → ∀ r e' req', users (dispatch r e' req' w).1 !! m = Some u))
  ∧ (keyed w →
     (Users.verify_email e req w).2
       = Reply (json 200 "Email verified successfully") →
     ∃ u', users (Users.verify_email e req w).1 !! m = Some u'
           ∧ challenge_consumed u'
           ∧ ∀ e' req', body_get "email" (body req') = JStr m →
               Users.verify_email e' req' (Users.verify_email e req w).1
               = ((Users.verify_email e req w).1,
                  Reply (json 400 "Email already verified"))).
Proof.
  intros Hmail.
  assert (∀ e1 req1 w1 u, body_get "email" (body req1) = JStr m →
            users w1 !! m = Some u → isVerified u = true →
            Users.verify_email e1 req1 w1
            = (w1, Reply (json 400 "Email already verified"))) as Hrefuse.
  { intros e1 req1 w1 u Hm1 Hu Hver. run_users.
    rewrite Hm1, Hu. cbv beta iota. by rewrite Hver. }
  split.
  - intros u Hu Hver. split; [by eapply Hrefuse|].
    intros Hk r e' req'. by apply dispatch_verified_stable.
  - intros Hk Hok.
    assert (∃ u', users (Users.verify_email e req w).1 !! m = Some u'
                  ∧ challenge_consumed u') as (u' & Hu' & Hcons).
    { revert Hok. run_users. rewrite Hmail.
      destruct (users w !! m) as [u|] eqn:Hu; [|done]. cbv beta iota.
      destruct (isVerified u); [done|].
      destruct (Users.no_challenge u); [done|].
      destruct (Users.otp_differs u _); [done|].
      destruct (Users.expired e u); [done|].
      destruct (save_ok e); [|done]. intros _.
      exists (User (id u) (email u) (firstName u) true None None).
      split; [|done]. cbn [fst users email].
      rewrite (Hk _ _ Hu). apply lookup_insert_eq. }
    exists u'. split_and!; [done..|].
    intros e' req' Hm'. eapply Hrefuse; [done..|]. by destruct Hcons.
Qed.

Lemma verify_email_already_verified_witness :
  let e := sample_env "succeeded" true 1000 0 in
  let req := plain_request (verify_body (JStr "123456")) in
  let w1 := (Users.verify_email e req registered_world).1 in
  (Users.verify_email e req registered_world).2
    = Reply (json 200 "Email verified successfully")
  ∧ Users.verify_email e req w1 = (w1, Reply (json 400 "Email already verified"))
  ∧ Users.verify_email e (plain_request (verify_body (JStr "000000"))) w1
    = (w1, Reply (json 400 "Email already verified")).
Proof.
  intros e req w1.
  destruct (verify_email_already_verified e req registered_world
              "al@example.org") as [_ Honce]; [by vm_compute|].
  destruct Honce as (u' & _ & _ & Hlater).
  - apply reachable_keyed.
    exact (reachable_step empty_world PostRegister
             (sample_env "succeeded" true 0 23456)
             (plain_request register_body) (reachable_init ∅)).
  - by vm_compute.
  - split; [by vm_compute|].
    split; apply Hlater; by vm_compute.
Defined.

(** ** The routes on explicit requests *)

Example confirmBooking_without_token :
  Hotels.confirmBooking (sample_env "succeeded" true 0 0)
    (plain_request sample_body) sample_world
  = (sample_world,
     Reply (Response 401
              (MessageDetails "Authentication required"
                 "No token provided in cookies or Authorization header")
              None)).
Proof. by vm_compute. Qed.

Example confirmBooking_paid :
  let r := Hotels.confirmBooking (sample_env "succeeded" true 0 0)
             (bearer_request "H1" sample_body) sample_world in
  r.2 = Reply (Response 200 Empty None)
  ∧ bookings <$> hotels r.1 !! "H1"
    = Some [<["userId" := JStr "alice"]> sample_body]
  ∧ length (outbox r.1) = 1%nat.
Proof. by vm_compute. Qed.

Example resend_replaces_challenge :
  let r := Users.resend_otp (sample_env "succeeded" true 5000 77)
             (plain_request (verify_body JUndefined)) registered_world in
  r.2 = Reply (json 200 "OTP resent successfully")
  ∧ users r.1 !! "al@example.org"
    = Some (User "u1" "al@example.org" (JStr "Al") false (Some "100077")
              (Some 605000)).
Proof. by vm_compute. Qed.

(** ** More on the token middleware *)

Lemma split_on_free c s : occurs c s = false → split_on c s = [s].
Proof.
  induction s as [|a s IH]; [done|]. simpl.
  intros [Ha Hs]%orb_false_iff. apply bool_decide_eq_false in Ha.
  rewrite decide_False by done. by rewrite IH.
Qed.

Lemma split_on_app c s t :
  occurs c s = false → split_on c (s +:+ String c t) = s :: split_on c t.
Proof.
  induction s as [|a s IH]; simpl.
  - intros _. by rewrite decide_True.
  - intros [Ha Hs]%orb_false_iff. apply bool_decide_eq_false in Ha.
    rewrite decide_False by done. by rewrite IH.
Qed.

(** The cookie comes first: when [auth_token] is a non-empty cookie, every
    route answers and acts the same whatever the Authorization header holds,
    even a header carrying another valid token. *)
Theorem cookie_shadows_header r e c a1 a2 hd q hid b w x tok :
  c !! "auth_token" = Some (String x tok) →
  dispatch r e (Request c a1 hd q hid b) w
  = dispatch r e (Request c a2 hd q hid b) w.
Proof.
  intros Hc.
  assert (Auth.verifyToken e (Request c a1 hd q hid b)
          = Auth.verifyToken e (Request c a2 hd q hid b)) as Hv.
  { unfold Auth.verifyToken, Auth.token_of. simpl. by rewrite Hc. }
  destruct r; simpl; try done.
  - unfold Hotels.createAuthorization. by rewrite Hv.
  - unfold Hotels.confirmBooking. by rewrite Hv.
Qed.

Lemma cookie_shadows_header_witness :
  let c : gmap string string := {[ "auth_token" := "tokA" ]} in
  dispatch PostBookings (sample_env "succeeded" true 0 0)
    (Request c (Some "Bearer forged") ∅ ∅ "H1" sample_body) sample_world
  = dispatch PostBookings (sample_env "succeeded" true 0 0)
      (Request c None ∅ ∅ "H1" sample_body) sample_world.
Proof.
  intros c.
  apply (cookie_shadows_header PostBookings _ c (Some "Bearer forged") None
           ∅ ∅ "H1" sample_body sample_world "t"%char "okA").
  by vm_compute.
Defined.

(** Without a cookie the token is the second space-separated word of the
    Authorization header; the first word, the scheme, is not looked at. *)
Theorem header_scheme_ignored e req scheme token uid :
  no_cookie req →
  authorization req = Some (scheme +:+ String " " token) →
  occurs " " scheme = false →
  occurs " " token = false →
  token ≠ EmptyString →
  Auth.token_of req = Some token
  ∧ (authenticated e req uid ↔ jwt_verify e token = JwtPayload uid).
Proof.
  intros Hc Ha Hs Ht Hne.
  assert (Auth.token_of req = Some token) as Htok.
  { unfold Auth.token_of. rewrite Ha, (split_on_app _ _ _ Hs), (split_on_free _ _ Ht).
    by destruct Hc as [-> | ->]. }
  split; [done|]. unfold authenticated. rewrite Htok. split.
  - by intros (t & [= <-] & _ & Hjwt).
  - intros Hjwt. by exists token.
Qed.

Lemma header_scheme_ignored_witness :
  let req := Request ∅ (Some "Basic tokA") ∅ ∅ "H1" sample_body in
  Auth.token_of req = Some "tokA"
  ∧ (authenticated (sample_env "succeeded" true 0 0) req (Some "alice")
     ↔ jwt_verify (sample_env "succeeded" true 0 0) "tokA"
       = JwtPayload (Some "alice")).
Proof.
  intros req.
  apply (header_scheme_ignored _ req "Basic" "tokA" (Some "alice")).
  - left. by vm_compute.
  - by vm_compute.
  - by vm_compute.
  - by vm_compute.
  - by vm_compute.
Defined.

(** A request that carries no accepted credential gets 401 from both
    protected booking routes, and nothing is read from or written to the
    provider, the collections or the outbox. *)
Theorem protected_routes_need_token r e req w :
  r = PostPaymentIntent ∨ r = PostBookings →
  (∀ uid, ¬ authenticated e req uid) →
  ∃ resp, dispatch r e req w = (w, Reply resp) ∧ status resp = 401.
Proof.
  intros Hr Hno.
  assert (∃ resp, Auth.verifyToken e req w = (w, Reply resp)
                  ∧ status resp = 401) as (resp & Hv & Hst).
  { unfold Auth.verifyToken.
    destruct (Auth.token_of req) as [[|x t]|] eqn:Htok;
      try (eexists; split; [reflexivity|done]).
    destruct (jwt_verify e (String x t)) as [uid| | |] eqn:Hjwt;
      try (eexists; split; [reflexivity|done]).
    destruct (Hno uid). by exists (String x t). }
  exists resp. split; [|done].
  destruct Hr as [-> | ->]; simpl;
    unfold Hotels.createAuthorization, Hotels.confirmBooking, mbind, handler_bind;
    by rewrite Hv.
Qed.

Lemma protected_routes_need_token_witness :
  ∃ resp,
    dispatch PostBookings (sample_env "succeeded" true 0 0)
      (Request ∅ (Some "Bearer stale") ∅ ∅ "H1" sample_body) sample_world
    = (sample_world, Reply resp)
    ∧ status resp = 401.
Proof.
  apply (protected_routes_need_token PostBookings).
  - by right.
  - intros uid (t & Ht & _ & Hj). vm_compute in Ht. injection Ht as <-.
    by vm_compute in Hj.
Defined.

(** ** More on the booking routes *)

(** The booking handler either leaves the world as it is, or every check
    has passed and the hotel of the path resolves. *)
Lemma bookings_handler_cases e req uid w :
  (Hotels.bookings_handler e req uid w).1 = w
  ∧ (Hotels.bookings_handler e req uid w).2 ≠ Reply (Response 200 Empty None)
  ∨ ∃ p h,
      stripe_retrieve e (body_get "paymentIntentId" (body req)) = ProviderIntent p
      ∧ Hotels.context_mismatch p req uid = false
      ∧ pi_status p = "succeeded"
      ∧ hotels w !! hotelId req = Some h.
Proof.
  destruct (stripe_retrieve e (body_get "paymentIntentId" (body req)))
    as [| |p] eqn:Hret;
    [left; run_handler; by rewrite Hret..|].
  destruct (Hotels.context_mismatch p req uid) eqn:Hctx;
    [left; run_handler; by rewrite Hret, Hctx|].
  destruct (decide (pi_status p = "succeeded")) as [Hst|Hst];
    [|left; run_handler; rewrite Hret, Hctx;
      by rewrite (bool_decide_eq_false_2 _ Hst)].
  destruct (hotels w !! hotelId req) as [h|] eqn:Hh;
    [right; by exists p, h|].
  left. run_handler. rewrite Hret, Hctx, Hst. cbv beta iota.
  rewrite bool_decide_eq_true_2 by done. cbv beta iota delta [negb].
  by rewrite Hh.
Qed.

Lemma confirmBooking_cases e req w :
  (Hotels.confirmBooking e req w).1 = w
  ∧ (Hotels.confirmBooking e req w).2 ≠ Reply (Response 200 Empty None)
  ∨ ∃ uid p h,
      authenticated e req uid
      ∧ stripe_retrieve e (body_get "paymentIntentId" (body req)) = ProviderIntent p
      ∧ Hotels.context_mismatch p req uid = false
      ∧ pi_status p = "succeeded"
      ∧ hotels w !! hotelId req = Some h
      ∧ Hotels.confirmBooking e req w = Hotels.bookings_handler e req uid w.
Proof.
  unfold Hotels.confirmBooking at 1 2 3, mbind, handler_bind.
  destruct (Auth.verifyToken e req w) as [w' o] eqn:Hv.
  pose proof (verifyToken_world e req w) as Hw. rewrite Hv in Hw.
  simpl in Hw. subst w'.
  destruct o as [uid|r|]; [| left; split; [done|] | by left].
  - apply verifyToken_next in Hv as [_ Hauth].
    destruct (bookings_handler_cases e req uid w) as [?|(p & h & ?)]; [by left|].
    right. exists uid, p, h. split_and!; tauto.
  - revert Hv. unfold Auth.verifyToken.
    destruct (Auth.token_of req) as [[|x t]|]; try by intros [= <-].
    by destruct (jwt_verify e (String x t)); intros [= <-].
Qed.

(** No booking without a verified payment: if POST /:hotelId/bookings
    changes anything at all, then the caller is authenticated, the provider
    holds the presented intent with status "succeeded" and with this hotel
    and this caller as metadata, and the change to the hotels is the append
    of the caller's record to the hotel of the path. *)
Theorem booking_requires_payment e req w :
  (Hotels.confirmBooking e req w).1 ≠ w →
  ∃ uid p h,
    authenticated e req uid
    ∧ stripe_retrieve e (body_get "paymentIntentId" (body req)) = ProviderIntent p
    ∧ pi_status p = "succeeded"
    ∧ metadata p !! "hotelId" = Some (hotelId req)
    ∧ metadata p !! "userId" = uid
    ∧ hotels w !! hotelId req = Some h
    ∧ hotels (Hotels.confirmBooking e req w).1
      = <[hotelId req := Hotels.with_booking h (Hotels.newBooking req uid)]>
          (hotels w).
Proof.
  intros Hchg.
  destruct (confirmBooking_cases e req w)
    as [[Hsame _]|(uid & p & h & Hauth & Hret & Hctx & Hst & Hh & Hrun)];
    [done|].
  exists uid, p, h. apply context_mismatch_false in Hctx as [Hm1 Hm2].
  split_and!; try done.
  rewrite Hrun.
  rewrite (bookings_handler_checks_pass e req uid w p h); try done;
    [|by apply context_mismatch_false].
  cbv zeta. by destruct (save_ok e && sendMail e _).
Qed.

Lemma booking_requires_payment_witness :
  let e := sample_env "succeeded" true 0 0 in
  let req := bearer_request "H1" sample_body in
  ∃ uid p h,
    authenticated e req uid
    ∧ stripe_retrieve e (body_get "paymentIntentId" (body req)) = ProviderIntent p
    ∧ pi_status p = "succeeded"
    ∧ metadata p !! "hotelId" = Some (hotelId req)
    ∧ metadata p !! "userId" = uid
    ∧ hotels sample_world !! hotelId req = Some h
    ∧ hotels (Hotels.confirmBooking e req sample_world).1
      = <[hotelId req := Hotels.with_booking h (Hotels.newBooking req uid)]>
          (hotels sample_world).
Proof.
  intros e req. apply (booking_requires_payment e req sample_world).
  intros Heq. apply (f_equal (λ w, length (outbox w))) in Heq.
  by vm_compute in Heq.
Defined.

(** The answer 200 and the confirmation notice go together, and both come
    after the append: either no mail is sent and the answer is not 200, or
    the record has been appended, exactly one notice built from the request
    and the hotel has gone out, and the answer is 200. *)
Theorem confirmBooking_notice_with_success e req w :
  outbox (Hotels.confirmBooking e req w).1 = outbox w
  ∧ (Hotels.confirmBooking e req w).2 ≠ Reply (Response 200 Empty None)
  ∨ ∃ uid h,
      authenticated e req uid
      ∧ hotels w !! hotelId req = Some h
      ∧ Hotels.confirmBooking e req w
        = (World (<[hotelId req
                     := Hotels.with_booking h (Hotels.newBooking req uid)]>
                    (hotels w))
                 (users w) (outbox w ++ [Hotels.confirmation_mail req h])
                 (charges w),
           Reply (Response 200 Empty None)).
Proof.
  destruct (confirmBooking_cases e req w)
    as [[Hsame Hno]|(uid & p & h & Hauth & Hret & Hctx & Hst & Hh & Hrun)].
  - left. by rewrite Hsame.
  - rewrite Hrun.
    rewrite (bookings_handler_checks_pass e req uid w p h) by done. cbv zeta.
    destruct (save_ok e && sendMail e _); [right; by exists uid, h|by left].
Qed.

(** When every check has passed but the hotel id no longer resolves, the
    answer is 400 "hotel not found": nothing is written and no notice is
    sent. *)
Theorem confirmBooking_hotel_gone e req uid w p :
  authenticated e req uid →
  stripe_retrieve e (body_get "paymentIntentId" (body req)) = ProviderIntent p →
  Hotels.context_mismatch p req uid = false →
  pi_status p = "succeeded" →
  hotels w !! hotelId req = None →
  Hotels.confirmBooking e req w = (w, Reply (json 400 "hotel not found")).
Proof.
  intros Hauth Hret Hctx Hst Hh. rewrite (confirmBooking_handler _ _ _ _ Hauth).
  run_handler. rewrite Hret, Hctx, Hst. cbv beta iota.
  rewrite bool_decide_eq_true_2 by done. cbv beta iota delta [negb].
  by rewrite Hh.
Qed.

Lemma confirmBooking_hotel_gone_witness :
  Hotels.confirmBooking (sample_env "succeeded" true 0 0)
    (bearer_request "H1" sample_body) empty_world
  = (empty_world, Reply (json 400 "hotel not found")).
Proof.
  apply (confirmBooking_hotel_gone (sample_env "succeeded" true 0 0)
           (bearer_request "H1" sample_body) (Some "alice") empty_world
           (intent_for "succeeded" "H1" "alice")).
  - exists "tokA". by vm_compute.
  - by vm_compute.
  - by vm_compute.
  - by vm_compute.
  - by vm_compute.
Defined.

(** A provider that rejects the status lookup, or has no such intent, stops
    the confirmation before any write: 500 in the first case, 400 "payment
    intent not found" in the second. *)
Theorem confirmBooking_unknown_intent e req uid w :
  authenticated e req uid →
  (stripe_retrieve e (body_get "paymentIntentId" (body req)) = ProviderError →
   Hotels.confirmBooking e req w = (w, Reply (json 500 "something went wrong")))
  ∧ (stripe_retrieve e (body_get "paymentIntentId" (body req)) = ProviderNone →
     Hotels.confirmBooking e req w
     = (w, Reply (json 400 "payment intent not found"))).
Proof.
  intros Hauth. rewrite (confirmBooking_handler _ _ _ _ Hauth). run_handler.
  split; by intros ->.
Qed.

Lemma confirmBooking_unknown_intent_witness :
  Hotels.confirmBooking (sample_env "succeeded" true 0 0)
    (bearer_request "H1" (<["paymentIntentId" := JStr "pi_404"]> sample_body))
    sample_world
  = (sample_world, Reply (json 500 "something went wrong")).
Proof.
  apply (confirmBooking_unknown_intent (sample_env "succeeded" true 0 0)
           (bearer_request "H1"
              (<["paymentIntentId" := JStr "pi_404"]> sample_body))
           (Some "alice") sample_world).
  - exists "tokA". by vm_compute.
  - by vm_compute.
Defined.

(** ** What each route writes *)

Lemma grows_by_none {A} (l : list A) : grows_by_one l l.
Proof. exists []. split; [by rewrite app_nil_r|simpl; lia]. Qed.

Lemma grows_by_single {A} (l : list A) x : grows_by_one l (l ++ [x]).
Proof. exists [x]. split; [done|simpl; lia]. Qed.

Lemma createAuthorization_frame e req w :
  frame PostPaymentIntent w (Hotels.createAuthorization e req w).1.
Proof.
  unfold Hotels.createAuthorization, mbind, handler_bind.
  pose proof (verifyToken_world e req w) as Hw.
  destruct (Auth.verifyToken e req w) as [w' [uid| |]]; simpl in Hw; subst w';
    try (repeat split; apply grows_by_none).
  run_handler.
  destruct (hotels w !! hotelId req) as [h|];
    [|repeat split; apply grows_by_none].
  cbv beta iota.
  destruct (stripe_create e _) as [| |p];
    try (repeat split; apply grows_by_single).
  destruct (client_secret p) as [[|]|]; repeat split; apply grows_by_single.
Qed.

Lemma confirmBooking_frame e req w :
  frame PostBookings w (Hotels.confirmBooking e req w).1.
Proof.
  destruct (confirmBooking_cases e req w)
    as [[-> _]|(uid & p & h & _ & Hret & Hctx & Hst & Hh & ->)].
  - repeat split; apply grows_by_none.
  - rewrite (bookings_handler_checks_pass e req uid w p h) by done. cbv zeta.
    destruct (save_ok e && sendMail e _); repeat split;
      [apply grows_by_single|apply grows_by_none].
Qed.

Lemma users_routes_frame r e req w :
  r = PostRegister ∨ r = PostVerifyEmail ∨ r = PostResendOtp →
  frame r w (dispatch r e req w).1.
Proof.
  intros [-> | [-> | ->]]; simpl; run_users.
  - destruct (negb (Users.validation_ok e req));
      [repeat split; apply grows_by_none|].
    destruct (body_get "email" (body req)) as [| | | |s];
      try (repeat split; apply grows_by_none).
    destruct (users w !! s); [repeat split; apply grows_by_none|].
    cbv beta iota zeta.
    destruct (save_ok e); [destruct (sendMail e _)|]; repeat split;
      (apply grows_by_none || apply grows_by_single).
  - destruct (body_get "email" (body req)) as [| | | |s]; try done.
    destruct (users w !! s) as [u|]; [|done]. cbv beta iota.
    destruct (isVerified u); [done|].
    destruct (Users.no_challenge u); [done|].
    destruct (Users.otp_differs u _); [done|].
    destruct (Users.expired e u); [done|].
    by destruct (save_ok e).
  - destruct (falsy (body_get "email" (body req)));
      [repeat split; apply grows_by_none|].
    destruct (body_get "email" (body req)) as [| | | |s];
      try (repeat split; apply grows_by_none).
    destruct (users w !! s) as [u|]; [|repeat split; apply grows_by_none].
    cbv beta iota zeta.
    destruct (isVerified u); [repeat split; apply grows_by_none|].
    destruct (save_ok e); [destruct (sendMail e _)|]; repeat split;
      (apply grows_by_none || apply grows_by_single).
Qed.

(** Each route writes only what it owns: the payment-intent route only logs
    a provider request; the booking route touches hotels and the outbox;
    register and resend-otp touch accounts and the outbox; verify-email
    touches accounts only. Each log grows by at most one entry per request. *)
Theorem routes_write_their_own r e req w :
  frame r w (dispatch r e req w).1.
Proof.
  destruct r.
  - apply createAuthorization_frame.
  - apply confirmBooking_frame.
  - apply users_routes_frame. by left.
  - apply users_routes_frame. by right; left.
  - apply users_routes_frame. by right; right.
Qed.

Lemma dispatch_hotels_other r e req w :
  r ≠ PostBookings → hotels (dispatch r e req w).1 = hotels w.
Proof.
  intros Hr. destruct r; try done.
  - by destruct (createAuthorization_frame e req w).
  - by destruct (users_routes_frame PostRegister e req w) as [? _]; [left|].
  - by destruct (users_routes_frame PostVerifyEmail e req w) as [? _];
      [right; left|].
  - by destruct (users_routes_frame PostResendOtp e req w) as [? _];
      [right; right|].
Qed.

(** Bookings are append-only and hotels are neither created nor removed:
    after any request to any route, a hotel that did not exist still does
    not, and an existing hotel keeps its name, its rate and all its
    bookings in order, with at most one record added at the end. *)
Theorem hotels_append_only r e req w hid :
  match hotels w !! hid with
  | Some h =>
      ∃ added,
        hotels (dispatch r e req w).1 !! hid
        = Some (Hotel (name h) (pricePerNight h) (bookings h ++ added))
        ∧ (length added ≤ 1)%nat
  | None => hotels (dispatch r e req w).1 !! hid = None
  end.
Proof.
  assert (∀ h : hotel, h = Hotel (name h) (pricePerNight h) (bookings h ++ []))
    as Hsame by (intros []; simpl; by rewrite app_nil_r).
  assert (hotels (dispatch r e req w).1 = hotels w
          ∨ ∃ h b, hotels w !! hotelId req = Some h
                   ∧ hotels (dispatch r e req w).1
                     = <[hotelId req := Hotels.with_booking h b]> (hotels w))
    as [->|(h0 & b & Hh0 & ->)].
  { destruct r; try (left; by apply dispatch_hotels_other).
    simpl.
    destruct (confirmBooking_cases e req w)
      as [[-> _]|(uid & p & h & _ & Hret & Hctx & Hst & Hh & ->)]; [by left|].
    right. exists h, (Hotels.newBooking req uid). split; [done|].
    rewrite (bookings_handler_checks_pass e req uid w p h) by done. cbv zeta.
    by destruct (save_ok e && sendMail e _). }
  - destruct (hotels w !! hid) as [h|]; [|done].
    exists []. split; [by rewrite <- Hsame|simpl; lia].
  - destruct (decide (hotelId req = hid)) as [<-|Hne].
    + rewrite Hh0, lookup_insert_eq. exists [b]. split; [done|simpl; lia].
    + rewrite lookup_insert_ne by done.
      destruct (hotels w !! hid) as [h|]; [|done].
      exists []. split; [by rewrite <- Hsame|simpl; lia].
Qed.

(** ** More on the payment-intent route *)

(** An unknown hotel is answered 400 "Hotel not found" before the provider
    is contacted. *)
Theorem createAuthorization_unknown_hotel e req uid w :
  authenticated e req uid →
  hotels w !! hotelId req = None →
  Hotels.createAuthorization e req w = (w, Reply (json 400 "Hotel not found")).
Proof.
  intros Hauth Hh. rewrite (createAuthorization_handler _ _ _ _ Hauth).
  run_handler. by rewrite Hh.
Qed.

Lemma createAuthorization_unknown_hotel_witness :
  Hotels.createAuthorization (sample_env "succeeded" true 0 0)
    (bearer_request "H9" sample_body) sample_world
  = (sample_world, Reply (json 400 "Hotel not found")).
Proof.
  apply (createAuthorization_unknown_hotel _ _ (Some "alice")).
  - exists "tokA". by vm_compute.
  - by vm_compute.
Defined.

(** The night count is not validated: when the body has no
    [numberOfNights], the request issued to the provider has the amount
    [NaN]. *)
Theorem createAuthorization_unvalidated e req uid w h :
  authenticated e req uid →
  hotels w !! hotelId req = Some h →
  body req !! "numberOfNights" = None →
  charges (Hotels.createAuthorization e req w).1
  = charges w ++ [CreateParams NaN "gbp"
                    (Hotels.intent_metadata (hotelId req) uid)].
Proof.
  intros Hauth Hh Hn. rewrite (createAuthorization_handler _ _ _ _ Hauth).
  run_handler. rewrite Hh. cbv beta iota.
  unfold body_get. rewrite Hn. simpl.
  destruct (stripe_create e _) as [| |p]; try done.
  by destruct (client_secret p) as [[|]|].
Qed.

Lemma createAuthorization_unvalidated_witness :
  charges (Hotels.createAuthorization (sample_env "succeeded" true 0 0)
             (bearer_request "H1" ∅) sample_world).1
  = [] ++ [CreateParams NaN "gbp" (Hotels.intent_metadata "H1" (Some "alice"))].
Proof.
  apply (createAuthorization_unvalidated (sample_env "succeeded" true 0 0)
           (bearer_request "H1" ∅) (Some "alice") sample_world
           (Hotel "Inn" 100 [])).
  - exists "tokA". by vm_compute.
  - by vm_compute.
  - by vm_compute.
Defined.

(** When the provider call rejects, the handler, which has no [try],
    produces no answer at all; the request has been issued. *)
Theorem createAuthorization_provider_rejects e req uid w h :
  authenticated e req uid →
  hotels w !! hotelId req = Some h →
  stripe_create e (authorization_params e req uid h) = ProviderError →
  Hotels.createAuthorization e req w
  = (World (hotels w) (users w) (outbox w)
       (charges w ++ [authorization_params e req uid h]),
     Raise).
Proof.
  intros Hauth Hh Hc. rewrite (createAuthorization_handler _ _ _ _ Hauth).
  run_handler. rewrite Hh. cbv beta iota.
  unfold authorization_params in Hc. by rewrite Hc.
Qed.

Lemma createAuthorization_provider_rejects_witness :
  let e := provider_down (sample_env "succeeded" true 0 0) in
  let req := bearer_request "H1" sample_body in
  Hotels.createAuthorization e req sample_world
  = (World (hotels sample_world) (users sample_world) (outbox sample_world)
       (charges sample_world
        ++ [authorization_params e req (Some "alice") (Hotel "Inn" 100 [])]),
     Raise).
Proof.
  intros e req.
  apply (createAuthorization_provider_rejects e req (Some "alice") sample_world
           (Hotel "Inn" 100 [])).
  - exists "tokA". by vm_compute.
  - by vm_compute.
  - by vm_compute.
Defined.

(** ** More on the account routes *)

Lemma register_run e req w s :
  Users.validation_ok e req = true →
  body_get "email" (body req) = JStr s →
  users w !! s = None →
  save_ok e = true →
  Users.register e req w =
    let u := new_account e req s in
    if sendMail e (verify_mail e u)
    then (with_mail (with_account w u) (verify_mail e u),
          Reply (registered_reply e u))
    else (with_account w u, Reply (json 500 "Something went wrong")).
Proof.
  intros Hval Hmail Hfree Hsave. run_users.
  rewrite Hval, Hmail. cbv beta iota delta [negb]. rewrite Hfree.
  cbv beta iota zeta. rewrite Hsave.
  cbv zeta. unfold verify_mail, new_account. simpl.
  by destruct (sendMail e _).
Qed.

Lemma resend_run e req w s u :
  body_get "email" (body req) = JStr s →
  s ≠ EmptyString →
  users w !! s = Some u →
  isVerified u = false →
  save_ok e = true →
  Users.resend_otp e req w =
    if sendMail e (resend_mail e u)
    then (with_mail (with_account w (reissued e u)) (resend_mail e u),
          Reply (json 200 "OTP resent successfully"))
    else (with_account w (reissued e u),
          Reply (json 500 "Something went wrong")).
Proof.
  intros Hmail Hne Hu Hver Hsave. run_users. rewrite Hmail.
  destruct s as [|a s]; [done|]. cbv beta iota delta [falsy].
  rewrite Hu. cbv beta iota zeta. rewrite Hver, Hsave.
  unfold resend_mail, reissued. simpl.
  by destruct (sendMail e _).
Qed.

(** Issue, then verify. After a registration answered 200, the last mail in
    the outbox is addressed to the new account and carries the stored code;
    submitting that code no later than ten minutes after the registration
    verifies the account and erases the challenge. *)
Theorem register_then_verify e0 req0 w s :
  Users.validation_ok e0 req0 = true →
  body_get "email" (body req0) = JStr s →
  users w !! s = None →
  save_ok e0 = true →
  sendMail e0 (verify_mail e0 (new_account e0 req0 s)) = true →
  let u := new_account e0 req0 s in
  let w1 := (Users.register e0 req0 w).1 in
  (Users.register e0 req0 w).2 = Reply (registered_reply e0 u)
  ∧ users w1 !! s = Some u
  ∧ last (outbox w1) = Some (verify_mail e0 u)
  ∧ ∀ e req,
      body_get "email" (body req) = JStr s →
      body_get "otp" (body req) = JStr (Users.generateOtp e0) →
      now e ≤ now e0 + 10 * 60 * 1000 →
      save_ok e = true →
      Users.verify_email e req w1
      = (with_account w1 (verified u),
         Reply (json 200 "Email verified successfully")).
Proof.
  intros Hval Hmail Hfree Hsave Hsend u w1. subst u w1.
  rewrite (register_run e0 req0 w s) by done. cbv zeta. rewrite Hsend.
  cbn [fst snd]. split_and!; [done|apply lookup_insert_eq|apply last_snoc|].
  intros e req Hm Hc Hnow Hs.
  rewrite (verify_email_matching e0 e req _ s (new_account e0 req0 s));
    [|done|done| |done].
  - rewrite bool_decide_eq_false_2; [by rewrite Hs|].
    unfold Users.expiryFrom. lia.
  - apply lookup_insert_eq.
Qed.

Lemma register_then_verify_witness :
  let e0 := sample_env "succeeded" true 0 23456 in
  let req0 := plain_request register_body in
  let u := new_account e0 req0 "al@example.org" in
  let w1 := (Users.register e0 req0 empty_world).1 in
  (Users.register e0 req0 empty_world).2 = Reply (registered_reply e0 u)
  ∧ users w1 !! "al@example.org" = Some u
  ∧ last (outbox w1) = Some (verify_mail e0 u)
  ∧ ∀ e req,
      body_get "email" (body req) = JStr "al@example.org" →
      body_get "otp" (body req) = JStr (Users.generateOtp e0) →
      now e ≤ now e0 + 10 * 60 * 1000 →
      save_ok e = true →
      Users.verify_email e req w1
      = (with_account w1 (verified u),
         Reply (json 200 "Email verified successfully")).
Proof.
  intros e0 req0.
  apply (register_then_verify e0 req0 empty_world "al@example.org");
    by vm_compute.
Defined.

(** Registration is refused, and nothing is written or sent, when the body
    fails validation (400 with the validation errors) and when the email is
    already on file, verified or not (400 "User already exists"). *)
Theorem register_refused e req w :
  (Users.validation_ok e req = false →
   Users.register e req w = (w, Reply (Response 400 ValidationErrors None)))
  ∧ (∀ s u, Users.validation_ok e req = true →
            body_get "email" (body req) = JStr s →
            users w !! s = Some u →
            Users.register e req w = (w, Reply (json 400 "User already exists"))).
Proof.
  split.
  - intros Hval. run_users. by rewrite Hval.
  - intros s u Hval Hmail Hu. run_users. rewrite Hval, Hmail.
    cbv beta iota delta [negb]. by rewrite Hu.
Qed.

Lemma register_refused_witness :
  Users.register (sample_env "succeeded" true 5 1)
    (plain_request register_body) registered_world
  = (registered_world, Reply (json 400 "User already exists"))
  ∧ Users.register (sample_env "succeeded" true 5 1)
      (plain_request (verify_body JNull)) registered_world
    = (registered_world, Reply (Response 400 ValidationErrors None)).
Proof.
  split.
  - apply (proj2 (register_refused (sample_env "succeeded" true 5 1)
                    (plain_request register_body) registered_world)
             "al@example.org"
             (User "u1" "al@example.org" (JStr "Al") false (Some "123456")
                (Some 600000))); by vm_compute.
  - apply (proj1 (register_refused (sample_env "succeeded" true 5 1)
                    (plain_request (verify_body JNull)) registered_world)).
    by vm_compute.
Defined.

(** When the verification mail is rejected, the registration is answered
    500 but the account has been stored, unverified and with its
    challenge: registering again with that email is refused with
    "User already exists". *)
Theorem register_mail_failure e0 req0 w s :
  Users.validation_ok e0 req0 = true →
  body_get "email" (body req0) = JStr s →
  users w !! s = None →
  save_ok e0 = true →
  sendMail e0 (verify_mail e0 (new_account e0 req0 s)) = false →
  let w1 := with_account w (new_account e0 req0 s) in
  Users.register e0 req0 w = (w1, Reply (json 500 "Something went wrong"))
  ∧ ∀ e req,
      Users.validation_ok e req = true →
      body_get "email" (body req) = JStr s →
      Users.register e req w1 = (w1, Reply (json 400 "User already exists")).
Proof.
  intros Hval Hmail Hfree Hsave Hsend w1.
  rewrite (register_run e0 req0 w s) by done. cbv zeta. rewrite Hsend.
  split; [done|]. intros e req Hv Hm. run_users. rewrite Hv, Hm.
  cbv beta iota delta [negb].
  unfold w1, with_account. cbn [users new_account email].
  by rewrite lookup_insert_eq.
Qed.

Lemma register_mail_failure_witness :
  let e0 := mail_down (sample_env "succeeded" true 0 23456) in
  let req0 := plain_request register_body in
  let w1 := with_account empty_world (new_account e0 req0 "al@example.org") in
  Users.register e0 req0 empty_world
  = (w1, Reply (json 500 "Something went wrong"))
  ∧ ∀ e req,
      Users.validation_ok e req = true →
      body_get "email" (body req) = JStr "al@example.org" →
      Users.register e req w1 = (w1, Reply (json 400 "User already exists")).
Proof.
  intros e0 req0.
  apply (register_mail_failure e0 req0 empty_world "al@example.org");
    by vm_compute.
Defined.

(** A new challenge replaces the old one. After resend-otp on an unverified
    account, whether or not the mail went out, the stored challenge is the
    new code with a fresh ten-minute window; any other code, the previous
    one included, is answered "Invalid OTP"; the new code is accepted
    within the new window, however stale the previous challenge was. *)
Theorem resend_replaces_challenge_code e1 req1 w s u :
  body_get "email" (body req1) = JStr s →
  s ≠ EmptyString →
  users w !! s = Some u →
  email u = s →
  isVerified u = false →
  save_ok e1 = true →
  let w1 := (Users.resend_otp e1 req1 w).1 in
  users w1 !! s = Some (reissued e1 u)
  ∧ ∀ e req,
      body_get "email" (body req) = JStr s →
      (body_get "otp" (body req) ≠ JStr (Users.generateOtp e1) →
       Users.verify_email e req w1 = (w1, Reply (json 400 "Invalid OTP")))
      ∧ (body_get "otp" (body req) = JStr (Users.generateOtp e1) →
         now e ≤ now e1 + 10 * 60 * 1000 →
         save_ok e = true →
         (Users.verify_email e req w1).2
         = Reply (json 200 "Email verified successfully")).
Proof.
  intros Hmail Hne Hu Hkey Hver Hsave w1.
  assert (users w1 !! s = Some (reissued e1 u)) as Hu1.
  { subst w1. rewrite (resend_run e1 req1 w s u) by done.
    destruct (sendMail e1 _); cbn [fst with_mail with_account users reissued email];
      rewrite Hkey; apply lookup_insert_eq. }
  split; [done|]. intros e req Hm. split.
  - intros Hwrong. run_users. rewrite Hm, Hu1. cbv beta iota.
    cbn [isVerified reissued].
    unfold Users.no_challenge, Users.otp_differs. cbn [otp otpExpiry reissued].
    pose proof (generateOtp_nonempty e1).
    destruct (Users.generateOtp e1) as [|a c] eqn:Hgen; [done|].
    rewrite bool_decide_eq_false_2 by congruence. done.
  - intros Hc Hnow Hs.
    rewrite (verify_email_matching e1 e req w1 s (reissued e1 u)) by done.
    rewrite bool_decide_eq_false_2; [by rewrite Hs|].
    unfold Users.expiryFrom. lia.
Qed.

Lemma resend_replaces_challenge_code_witness :
  let e1 := sample_env "succeeded" true 700000 77 in
  let req1 := plain_request (verify_body JUndefined) in
  let w1 := (Users.resend_otp e1 req1 registered_world).1 in
  users w1 !! "al@example.org"
  = Some (User "u1" "al@example.org" (JStr "Al") false (Some "100077")
            (Some 1300000))
  ∧ Users.verify_email (sample_env "succeeded" true 700001 0)
      (plain_request (verify_body (JStr "123456"))) w1
    = (w1, Reply (json 400 "Invalid OTP"))
  ∧ (Users.verify_email (sample_env "succeeded" true 1300000 0)
       (plain_request (verify_body (JStr "100077"))) w1).2
    = Reply (json 200 "Email verified successfully").
Proof.
  intros e1 req1 w1.
  destruct (resend_replaces_challenge_code e1 req1 registered_world
              "al@example.org"
              (User "u1" "al@example.org" (JStr "Al") false (Some "123456")
                 (Some 600000))) as [Hstored Hlater]; [by vm_compute..|].
  split; [exact Hstored|]. split.
  - apply Hlater; by vm_compute.
  - apply Hlater; by vm_compute.
Defined.

Lemma verify_email_wrong e req w s u a code t :
  body_get "email" (body req) = JStr s →
  users w !! s = Some u →
  isVerified u = false →
  otp u = Some (String a code) →
  otpExpiry u = Some t →
  body_get "otp" (body req) ≠ JStr (String a code) →
  Users.verify_email e req w = (w, Reply (json 400 "Invalid OTP")).
Proof.
  intros Hm Hu Hver Hotp Hexp Hwrong. run_users. rewrite Hm, Hu.
  cbv beta iota. rewrite Hver.
  unfold Users.no_challenge, Users.otp_differs. rewrite Hotp, Hexp.
  rewrite bool_decide_eq_false_2 by congruence. done.
Qed.

(** Wrong guesses cost nothing. Against an unverified account with a
    challenge, any number of attempts with codes other than the stored one
    are each answered "Invalid OTP", before the expiry is looked at, and
    leave the world, the challenge included, exactly as it was: attempts are
    neither counted nor limited. *)
Theorem wrong_guesses_unlimited calls w s u a code t :
  users w !! s = Some u →
  isVerified u = false →
  otp u = Some (String a code) →
  otpExpiry u = Some t →
  Forall (wrong_guess s (String a code)) calls →
  run Users.verify_email calls w
  = (w, repeat (Reply (json 400 "Invalid OTP")) (length calls)).
Proof.
  intros Hu Hver Hotp Hexp Hall.
  induction Hall as [|[e req] calls [Hm Hwrong] _ IH]; [done|].
  simpl in *.
  rewrite (verify_email_wrong e req w s u a code t) by done.
  by rewrite IH.
Qed.

Lemma wrong_guesses_unlimited_witness :
  let guess c := (sample_env "succeeded" true 900000 0,
                  plain_request (verify_body c)) in
  run Users.verify_email
    [guess (JStr "000000"); guess (JNum 123456); guess JUndefined]
    registered_world
  = (registered_world, repeat (Reply (json 400 "Invalid OTP")) 3).
Proof.
  intros guess.
  apply (wrong_guesses_unlimited
           [guess (JStr "000000"); guess (JNum 123456); guess JUndefined]
           registered_world "al@example.org"
           (User "u1" "al@example.org" (JStr "Al") false (Some "123456")
              (Some 600000)) "1"%char "23456" 600000); try by vm_compute.
  repeat constructor; by vm_compute.
Defined.

(** verify-email writes only when it succeeds: either the world is left as
    it was and the answer is not the 200 of a verification, or the answer is
    200 and the one change is that the account found by email is stored
    verified, with both challenge fields erased. *)
Theorem verify_email_writes_on_success e req w :
  (Users.verify_email e req w).1 = w
  ∧ (Users.verify_email e req w).2
    ≠ Reply (json 200 "Email verified successfully")
  ∨ ∃ s u,
      body_get "email" (body req) = JStr s
      ∧ users w !! s = Some u
      ∧ isVerified u = false
      ∧ Users.verify_email e req w
        = (with_account w (verified u),
           Reply (json 200 "Email verified successfully")).
Proof.
  run_users.
  destruct (body_get "email" (body req)) as [| | | |s] eqn:Hm; try by left.
  destruct (users w !! s) as [u|] eqn:Hu; [|by left]. cbv beta iota.
  destruct (isVerified u) eqn:Hver; [by left|].
  destruct (Users.no_challenge u); [by left|].
  destruct (Users.otp_differs u _); [by left|].
  destruct (Users.expired e u); [by left|].
  destruct (save_ok e); [|by left].
  right. by exists s, u.
Qed.

(** resend-otp writes only for an account that exists and is not verified:
    otherwise (no email in the body, unknown email, verified account, failed
    save) the world is left as it was and no mail is sent. *)
Theorem resend_only_for_pending e req w :
  (Users.resend_otp e req w).1 = w
  ∨ ∃ s u,
      body_get "email" (body req) = JStr s
      ∧ users w !! s = Some u
      ∧ isVerified u = false
      ∧ users (Users.resend_otp e req w).1
        = <[email u := reissued e u]> (users w).
Proof.
  run_users.
  destruct (falsy (body_get "email" (body req))); [by left|].
  destruct (body_get "email" (body req)) as [| | | |s] eqn:Hm; try by left.
  destruct (users w !! s) as [u|] eqn:Hu; [|by left]. cbv beta iota zeta.
  destruct (isVerified u) eqn:Hver; [by left|].
  destruct (save_ok e); [|by left].
  right. exists s, u. split_and!; try done.
  by destruct (sendMail e _).
Qed.

(** *** Accounts over time *)

Lemma dispatch_flag_matches r e req w :
  (∀ m u, users w !! m = Some u → flag_matches_challenge u) →
  ∀ m u, users (dispatch r e req w).1 !! m = Some u → flag_matches_challenge u.
Proof.
  intros Hinv m u.
  destruct (dispatch_users r e req w) as [->|(m0 & u' & -> & Hshape & _)];
    [apply Hinv|].
  destruct (decide (email u' = m)) as [<-|Hne].
  - rewrite lookup_insert_eq. intros [= <-].
    destruct Hshape as [Hi|Hc]; [right; by exists e|by left].
  - rewrite lookup_insert_ne by done. apply Hinv.
Qed.

Lemma reachable_flag_matches w m u :
  reachable w → users w !! m = Some u → flag_matches_challenge u.
Proof.
  intros Hreach. revert m u.
  induction Hreach as [hs|w r e req _ IH]; [|by apply dispatch_flag_matches].
  intros m u. simpl. by rewrite lookup_empty.
Qed.

(** In every world the server can reach, the verification flag and the
    challenge exclude each other: a verified account holds neither code nor
    expiry, and an unverified account holds the code and the expiry that
    some request issued together. *)
Theorem verified_iff_no_challenge w m u :
  reachable w →
  users w !! m = Some u →
  (isVerified u = true → otp u = None ∧ otpExpiry u = None)
  ∧ (isVerified u = false →
     ∃ e, otp u = Some (Users.generateOtp e)
          ∧ otpExpiry u = Some (now e + 10 * 60 * 1000)).
Proof.
  intros Hreach Hu.
  destruct (reachable_flag_matches w m u Hreach Hu)
    as [(Hv & Ho & Hx)|(e & Hv & Ho & Hx)].
  - split; [done|]. congruence.
  - split; [congruence|]. intros _. by exists e.
Qed.

Lemma verified_iff_no_challenge_witness :
  let u := User "u1" "al@example.org" (JStr "Al") false (Some "123456")
             (Some 600000) in
  (isVerified u = true → otp u = None ∧ otpExpiry u = None)
  ∧ (isVerified u = false →
     ∃ e, otp u = Some (Users.generateOtp e)
          ∧ otpExpiry u = Some (now e + 10 * 60 * 1000)).
Proof.
  intros u.
  apply (verified_iff_no_challenge registered_world "al@example.org" u).
  - exact (reachable_step empty_world PostRegister
             (sample_env "succeeded" true 0 23456)
             (plain_request register_body) (reachable_init ∅)).
  - by vm_compute.
Defined.

(** The answer "OTP not generated for this user" cannot occur: in every
    reachable world an account that is not verified holds a challenge. *)
Theorem no_challenge_unreachable e req w :
  reachable w →
  (Users.verify_email e req w).2
  ≠ Reply (json 400 "OTP not generated for this user").
Proof.
  intros Hreach. run_users.
  destruct (body_get "email" (body req)) as [| | | |s]; try done.
  destruct (users w !! s) as [u|] eqn:Hu; [|done]. cbv beta iota.
  destruct (isVerified u) eqn:Hver; [done|].
  destruct (reachable_flag_matches w s u Hreach Hu)
    as [(Hv & _)|(e0 & _ & Ho & Hx)]; [congruence|].
  pose proof (generateOtp_nonempty e0) as Hne.
  unfold Users.no_challenge. rewrite Ho, Hx.
  destruct (Users.generateOtp e0) as [|a c]; [done|].
  destruct (Users.otp_differs u _); [done|].
  destruct (Users.expired e u); [done|].
  by destruct (save_ok e).
Qed.

Lemma no_challenge_unreachable_witness :
  (Users.verify_email (sample_env "succeeded" true 0 0)
     (plain_request (verify_body JUndefined)) registered_world).2
  ≠ Reply (json 400 "OTP not generated for this user").
Proof.
  apply no_challenge_unreachable.
  exact (reachable_step empty_world PostRegister
           (sample_env "succeeded" true 0 23456)
           (plain_request register_body) (reachable_init ∅)).
Defined.

Lemma dispatch_users_shape r e req w :
  users (dispatch r e req w).1 = users w
  ∨ ∃ s u',
      users (dispatch r e req w).1 = <[email u' := u']> (users w)
      ∧ ((users w !! s = None ∧ email u' = s)
         ∨ ∃ u0, users w !! s = Some u0
                 ∧ (u' = reissued e u0 ∨ u' = verified u0)).
Proof.
  destruct r;
    [left; apply hotels_routes_users; by left
    |left; apply hotels_routes_users; by right|..]; simpl.
  - run_users.
    destruct (negb (Users.validation_ok e req)); [by left|].
    destruct (body_get "email" (body req)) as [| | | |s] eqn:Hmail;
      try by left.
    destruct (users w !! s) as [u0|] eqn:Hs; [by left|]. cbv beta iota zeta.
    destruct (save_ok e); [|by left].
    right. exists s, (new_account e req s).
    split; [by destruct (sendMail e _)|]. by left.
  - run_users.
    destruct (body_get "email" (body req)) as [| | | |s]; try by left.
    destruct (users w !! s) as [u|] eqn:Hu; [|by left]. cbv beta iota.
    destruct (isVerified u); [by left|].
    destruct (Users.no_challenge u); [by left|].
    destruct (Users.otp_differs u _); [by left|].
    destruct (Users.expired e u); [by left|].
    destruct (save_ok e); [|by left].
    right. exists s, (verified u). split; [done|]. right. exists u. tauto.
  - run_users.
    destruct (falsy (body_get "email" (body req))); [by left|].
    destruct (body_get "email" (body req)) as [| | | |s]; try by left.
    destruct (users w !! s) as [u|] eqn:Hu; [|by left]. cbv beta iota zeta.
    destruct (isVerified u) eqn:Hver; [by left|].
    destruct (save_ok e); [|by left].
    right. exists s, (reissued e u).
    split; [by destruct (sendMail e _)|]. right. exists u. tauto.
Qed.

(** Accounts are never removed and keep their identity: after any request
    to any route, an account on file is still on file under the same email,
    with the same id and first name; only the verification flag and the
    challenge can have changed. *)
Theorem accounts_keep_identity r e req w m u :
  keyed w →
  users w !! m = Some u →
  ∃ u', users (dispatch r e req w).1 !! m = Some u'
        ∧ id u' = id u ∧ email u' = email u ∧ firstName u' = firstName u.
Proof.
  intros Hk Hu.
  destruct (dispatch_users_shape r e req w)
    as [->|(s & u' & -> & [[Hfree Hmail]|(u0 & Hu0 & Hshape)])];
    [by exists u|..].
  - destruct (decide (email u' = m)) as [Heq|Hne]; [congruence|].
    rewrite lookup_insert_ne by done. by exists u.
  - assert (email u' = s) as Hkey.
    { rewrite <- (Hk _ _ Hu0). by destruct Hshape as [-> | ->]. }
    destruct (decide (s = m)) as [->|Hne].
    + rewrite Hkey, lookup_insert_eq. exists u'.
      assert (u0 = u) as -> by congruence.
      by destruct Hshape as [-> | ->].
    + rewrite Hkey, lookup_insert_ne by done. by exists u.
Qed.

Lemma accounts_keep_identity_witness :
  ∃ u', users (dispatch PostVerifyEmail (sample_env "succeeded" true 1000 0)
                 (plain_request (verify_body (JStr "123456")))
                 registered_world).1 !! "al@example.org" = Some u'
        ∧ id u' = "u1" ∧ email u' = "al@example.org" ∧ firstName u' = JStr "Al".
Proof.
  apply (accounts_keep_identity PostVerifyEmail
           (sample_env "succeeded" true 1000 0)
           (plain_request (verify_body (JStr "123456"))) registered_world
           "al@example.org"
           (User "u1" "al@example.org" (JStr "Al") false (Some "123456")
              (Some 600000))).
  - apply reachable_keyed.
    exact (reachable_step empty_world PostRegister
             (sample_env "succeeded" true 0 23456)
             (plain_request register_body) (reachable_init ∅)).
  - by vm_compute.
Defined.

(** ** GET /search *)

Lemma pages_of_bounds total :
  (total ≤ 5 * Search.pages_of total < total + 5)%nat.
Proof.
  unfold Search.pages_of.
  pose proof (Nat.div_mod_eq (total + 4) 5).
  pose proof (Nat.mod_upper_bound (total + 4) 5). lia.
Qed.

Lemma search_page e ps q docs total p :
  Search.constructSearchQuery e ps = Some q →
  Search.find_sorted e q (Search.sortOptions ps) = Some docs →
  Search.countDocuments e q = Some total →
  Search.pageNumber e ps = Int p →
  1 ≤ p →
  Search.search e ps
  = Search.SearchOk (take 5 (drop (5 * Z.to_nat (p - 1)) docs)) total (Int p)
      (Search.pages_of total).
Proof.
  intros Hq Hfind Hcount Hpage Hp. unfold Search.search.
  rewrite Hq, Hpage, Hfind, Hcount. simpl.
  unfold Search.pageSize. rewrite bool_decide_eq_true_2 by lia.
  do 3 f_equal. lia.
Qed.

(** The page count covers the total: [pages] is the least number of pages
    of five that holds [total] hotels; and a page asked for by a number from
    1 on never holds more than five hotels. *)
Theorem search_pagination_bounds e ps data total page pages :
  Search.search e ps = Search.SearchOk data total page pages →
  (total ≤ 5 * pages < total + 5)%nat
  ∧ (∀ p, page = Int p → 1 ≤ p → (length data ≤ 5)%nat).
Proof.
  unfold Search.search.
  destruct (Search.constructSearchQuery e ps) as [q|]; [|done].
  destruct (Search.find_sorted e q _) as [docs|]; [|done]. simpl.
  destruct (Search.window e _ docs) as [hs|] eqn:Hwin; [|done].
  destruct (Search.countDocuments e q) as [n|]; [|done].
  intros [= <- <- <- <-]. split; [apply pages_of_bounds|].
  intros p Hpage Hp. rewrite Hpage in Hwin. simpl in Hwin.
  unfold Search.pageSize in Hwin.
  rewrite bool_decide_eq_true_2 in Hwin by lia. injection Hwin as <-.
  rewrite length_take. lia.
Qed.

Lemma search_pagination_bounds_witness :
  (6 ≤ 5 * 2 < 6 + 5)%nat
  ∧ (∀ p, Int 2 = Int p → 1 ≤ p → (length [Hotel "F" 60 []] ≤ 5)%nat).
Proof.
  apply (search_pagination_bounds sample_search_env
           (with_page ∅ 2) [Hotel "F" 60 []] 6 (Int 2) 2).
  by vm_compute.
Defined.

Lemma constructSearchQuery_page e ps v :
  Search.constructSearchQuery e (<["page" := v]> ps)
  = Search.constructSearchQuery e ps.
Proof.
  unfold Search.constructSearchQuery. by rewrite !lookup_insert_ne by done.
Qed.

Lemma sortOptions_page ps v :
  Search.sortOptions (<["page" := v]> ps) = Search.sortOptions ps.
Proof. unfold Search.sortOptions. by rewrite lookup_insert_ne. Qed.

Lemma pageNumber_with_page e ps n :
  (0 < n)%nat →
  Search.pageNumber e (with_page ps n) = Search.parseInt e (pretty (Z.of_nat n)).
Proof.
  intros Hn. unfold Search.pageNumber, with_page. rewrite lookup_insert_eq.
  simpl. pose proof (pretty_pos_nonempty (Z.of_nat n)) as Hne.
  destruct (pretty (Z.of_nat n)); [|done]. destruct Hne; [lia|done].
Qed.

Lemma windows_concat {A} (l : list A) n :
  concat ((λ i, take 5 (drop (5 * i) l)) <$> seq 0 n) = take (5 * n) l.
Proof.
  induction n as [|n IH]; [done|].
  rewrite seq_S, fmap_app, concat_app, IH. simpl.
  rewrite app_nil_r, take_take_drop. f_equal. lia.
Qed.

(** The pages partition the result. When the database answers the filter
    with [docs] and counts as many, asking for the pages 1, 2, ... up to the
    reported page count and putting the answers end to end gives [docs]
    back: every matching hotel is on exactly one page, in order. *)
Theorem search_pages_partition e ps q docs :
  Search.constructSearchQuery e ps = Some q →
  Search.find_sorted e q (Search.sortOptions ps) = Some docs →
  Search.countDocuments e q = Some (length docs) →
  (∀ n, (1 ≤ n ≤ Search.pages_of (length docs))%nat →
        Search.parseInt e (pretty (Z.of_nat n)) = Int (Z.of_nat n)) →
  concat ((λ i, Search.data_of (Search.search e (with_page ps (S i))))
            <$> seq 0 (Search.pages_of (length docs)))
  = docs.
Proof.
  intros Hq Hfind Hcount Hparse.
  rewrite <- (take_ge docs (5 * Search.pages_of (length docs)))
    at 2 by apply pages_of_bounds.
  rewrite <- windows_concat. f_equal.
  apply list_fmap_ext. intros k i [Hi Hlt]%lookup_seq.
  simpl in Hi. subst i.
  rewrite (search_page e (with_page ps (S k)) q docs (length docs)
             (Z.of_nat (S k))).
  - simpl. do 2 f_equal. lia.
  - unfold with_page. by rewrite constructSearchQuery_page.
  - unfold with_page. by rewrite sortOptions_page.
  - done.
  - rewrite pageNumber_with_page by lia. apply Hparse. lia.
  - lia.
Qed.

Lemma search_pages_partition_witness :
  let docs := [Hotel "A" 10 []; Hotel "B" 20 []; Hotel "C" 30 [];
               Hotel "D" 40 []; Hotel "E" 50 []; Hotel "F" 60 []] in
  concat ((λ i, Search.data_of
                  (Search.search sample_search_env (with_page ∅ (S i))))
            <$> seq 0 (Search.pages_of (length docs)))
  = docs.
Proof.
  intros docs.
  apply (search_pages_partition sample_search_env ∅
           (Search.SearchQuery None None None None None None None) docs);
    try by vm_compute.
  intros n Hn. unfold Search.pages_of in Hn. simpl in Hn.
  assert (n = 1 ∨ n = 2)%nat as [-> | ->] by lia; by vm_compute.
Defined.

(** A destination that is not a valid pattern fails the whole search: the
    route builds a [RegExp] from the raw parameter, the constructor throws,
    and the answer is 500 "Something went wrong". *)
Theorem search_bad_pattern e ps v :
  ps !! "destination" = Some v →
  Search.truthy (Some v) = true →
  Search.regexp_ok e (Search.to_str v) = false →
  Search.search e ps = Search.SearchFailed (json 500 "Something went wrong").
Proof.
  intros Hd Ht Hbad. unfold Search.search, Search.constructSearchQuery.
  rewrite Hd, Ht. simpl. by rewrite Hbad.
Qed.

Lemma search_bad_pattern_witness :
  Search.search sample_search_env {[ "destination" := Search.QStr "(" ]}
  = Search.SearchFailed (json 500 "Something went wrong").
Proof.
  apply (search_bad_pattern sample_search_env _ (Search.QStr "("));
    by vm_compute.
Defined.

(** No page means page one: a query without [page], or with an empty one,
    is answered as the same query with [page=1]. *)
Theorem search_default_page e ps :
  Search.truthy (ps !! "page") = false →
  Search.search e ps = Search.search e (<["page" := Search.QStr "1"]> ps).
Proof.
  intros Hp. unfold Search.search.
  rewrite constructSearchQuery_page, sortOptions_page.
  assert (Search.pageNumber e ps
          = Search.pageNumber e (<["page" := Search.QStr "1"]> ps)) as ->;
    [|done].
  unfold Search.pageNumber. rewrite Hp. by rewrite lookup_insert_eq.
Qed.

Lemma search_default_page_witness :
  Search.search sample_search_env {[ "page" := Search.QStr "" ]}
  = Search.search sample_search_env
      (<["page" := Search.QStr "1"]> {[ "page" := Search.QStr "" ]}).
Proof. apply search_default_page. by vm_compute. Defined.

(** A facility or a type given once counts as a list of one: the search
    with [facilities=s] (or [types=s]) is the search with the one-element
    array. *)
Theorem search_single_value_as_list e ps k s :
  k = "facilities" ∨ k = "types" →
  s ≠ EmptyString →
  Search.search e (<[k := Search.QStr s]> ps)
  = Search.search e (<[k := Search.QArr [s]]> ps).
Proof.
  intros Hk Hs.
  assert (Search.truthy (Some (Search.QStr s)) = true) as Ht
    by by destruct s.
  unfold Search.search, Search.constructSearchQuery, Search.sortOptions,
    Search.pageNumber, Search.when.
  destruct Hk as [-> | ->];
    rewrite !lookup_insert_eq, !lookup_insert_ne by done;
    by rewrite Ht.
Qed.

Lemma search_single_value_as_list_witness :
  Search.search sample_search_env {[ "facilities" := Search.QStr "spa" ]}
  = Search.search sample_search_env {[ "facilities" := Search.QArr ["spa"] ]}.
Proof.
  apply (search_single_value_as_list sample_search_env ∅ "facilities" "spa").
  - by left.
  - done.
Defined.

(** ** The registration checks on explicit requests *)

(** A check reads every location: a short [password] cookie fails a
    request whose body is valid, a [password] header or query key can stand
    in for a missing body field, and a repeated query key is measured
    element by element. *)
Example validation_reads_every_location :
  let e := sample_env "succeeded" true 0 0 in
  let no_password := delete "password" register_body in
  Users.validation_ok e (Request ∅ None ∅ ∅ "" register_body) = true
  ∧ Users.validation_ok e
      (Request {[ "password" := "abc" ]} None ∅ ∅ "" register_body) = false
  ∧ Users.validation_ok e (Request ∅ None ∅ ∅ "" no_password) = false
  ∧ Users.validation_ok e
      (Request ∅ None {[ "password" := "hunter22" ]} ∅ "" no_password) = true
  ∧ Users.validation_ok e
      (Request ∅ None ∅ {[ "password" := Search.QArr ["hunter22"; "abc"] ]} ""
         register_body) = false
  ∧ Users.validation_ok e
      (Request ∅ None ∅ {[ "firstName" := Search.QArr ["Al"] ]} ""
         register_body) = false.
Proof. by vm_compute. Qed.

(** Checks that pass on an email found outside the body leave the new
    document without one: the registration is answered 500 and nothing is
    stored or sent. *)
Example register_email_outside_body :
  Users.register (sample_env "succeeded" true 0 0)
    (Request {[ "email" := "al@example.org" ]} None ∅ ∅ ""
       (delete "email" register_body))
    empty_world
  = (empty_world, Reply (json 500 "Something went wrong")).
Proof. by vm_compute. Qed.
